(** * Dataset sync: CSV ingestion and value coercion

    A shallow embedding of [scripts/miqa_sync_datasets.py]: the functions
    [err], [coerce_value], [read_csv_items] and [main], together with the
    Python built-ins they call ([str.strip], [str.lower], [str.isdigit],
    [int], [dict], [csv.DictReader]); [json.dumps] and the transport of
    [requests.post] are parameters of [main].

    Modelling conventions.
    - A Python [str] is a [string]; its characters are read as the code
      points 0..255, and the character predicates below are Python's on
      that range.
    - Python integers are unbounded: [Z].  [int] refuses a text of more
      than 4300 digits ([sys.int_info.default_max_str_digits], the
      interpreter's default).
    - [float] is a built-in whose result is a binary64 number; the model
      is parametric in the float type and in the parser.
    - A [dict] is an association list in insertion order.
    - Exceptions are an explicit result type; printing and the file
      system are threaded through a state. *)

From Stdlib Require Import String Ascii List ZArith NArith Bool Lia QArith.
From Stdlib Require Import DecimalString.
Import ListNotations.

Local Open Scope nat_scope.
Local Open Scope string_scope.
Local Open Scope list_scope.

Set Implicit Arguments.

(** ** Python's string built-ins *)

Module PyStr.

Definition code (c : ascii) : N := N_of_ascii c.

Definition between (lo hi n : N) : bool := N.leb lo n && N.leb n hi.

(** [str.isspace] on one character: TAB..CR, FS..US, SPACE, NEL, NBSP. *)
Definition isspace (c : ascii) : bool :=
  let n := code c in
  between 9 13 n || between 28 32 n || N.eqb n 133 || N.eqb n 160.

(** The characters [int] accepts as digits: ["0"] .. ["9"]. *)
Definition isdecimal (c : ascii) : bool := between 48 57 (code c).

(** [str.isdigit] on one character: the decimal digits and the
    superscripts two, three and one. *)
Definition isdigit_char (c : ascii) : bool :=
  let n := code c in
  isdecimal c || N.eqb n 178 || N.eqb n 179 || N.eqb n 185.

(** [str.lower] on one character. *)
Definition lower_char (c : ascii) : ascii :=
  let n := code c in
  if between 65 90 n || (between 192 222 n && negb (N.eqb n 215))
  then ascii_of_N (n + 32)
  else c.

Fixpoint lstrip (s : string) : string :=
  match s with
  | String c r => if isspace c then lstrip r else s
  | EmptyString => EmptyString
  end.

Fixpoint rstrip (s : string) : string :=
  match s with
  | String c r =>
      match rstrip r with
      | EmptyString => if isspace c then EmptyString else String c EmptyString
      | r' => String c r'
      end
  | EmptyString => EmptyString
  end.

(** [s.strip()] *)
Definition strip (s : string) : string := lstrip (rstrip s).

(** [s.lower()] *)
Fixpoint lower (s : string) : string :=
  match s with
  | String c r => String (lower_char c) (lower r)
  | EmptyString => EmptyString
  end.

Fixpoint forallb (p : ascii -> bool) (s : string) : bool :=
  match s with
  | String c r => p c && forallb p r
  | EmptyString => true
  end.

Definition nonempty (s : string) : bool :=
  match s with EmptyString => false | String _ _ => true end.

(** [s.isdigit()]: at least one character, all of them digits. *)
Definition isdigit (s : string) : bool := nonempty s && forallb isdigit_char s.

(** [s.startswith(p)] *)
Definition startswith (p s : string) : bool := String.prefix p s.

(** [s[1:]] *)
Definition tail (s : string) : string :=
  match s with String _ r => r | EmptyString => EmptyString end.

(** [ch in s] for a one-character [ch]. *)
Fixpoint contains (ch : ascii) (s : string) : bool :=
  match s with
  | String c r => Ascii.eqb ch c || contains ch r
  | EmptyString => false
  end.

Definition digit_value (c : ascii) : Z := Z.of_N (code c) - 48.

(** The digits of an [int] literal after its first digit; one
    underscore may separate two digits. *)
Fixpoint int_digits (acc : Z) (s : string) : option Z :=
  match s with
  | EmptyString => Some acc
  | String c r =>
      if isdecimal c then int_digits (10 * acc + digit_value c) r
      else if Ascii.eqb c "_" then
        match r with
        | String c' r' =>
            if isdecimal c' then int_digits (10 * acc + digit_value c') r'
            else None
        | EmptyString => None
        end
      else None
  end.

Definition int_unsigned (s : string) : option Z :=
  match s with
  | String c r => if isdecimal c then int_digits (digit_value c) r else None
  | EmptyString => None
  end.

(** The white space [int] skips around a literal: TAB..CR, SPACE, NEL
    and NBSP.  It is not [str.isspace]: FS..US are not skipped. *)
Definition int_space (c : ascii) : bool :=
  let n := code c in
  between 9 13 n || N.eqb n 32 || N.eqb n 133 || N.eqb n 160.

Fixpoint int_lstrip (s : string) : string :=
  match s with
  | String c r => if int_space c then int_lstrip r else s
  | EmptyString => EmptyString
  end.

Fixpoint int_rstrip (s : string) : string :=
  match s with
  | String c r =>
      match int_rstrip r with
      | EmptyString => if int_space c then EmptyString else String c EmptyString
      | r' => String c r'
      end
  | EmptyString => EmptyString
  end.

(** The number of digits of a text. *)
Fixpoint count_digits (s : string) : N :=
  match s with
  | String c r => ((if isdecimal c then 1 else 0) + count_digits r)%N
  | EmptyString => 0%N
  end.

(** [sys.int_info.default_max_str_digits] *)
Definition int_max_str_digits : N := 4300.

(** The digits of an [int] literal, sign removed: the syntax, and no
    more digits than the limit. *)
Definition int_limited (s : string) : option Z :=
  if N.ltb int_max_str_digits (count_digits s) then None else int_unsigned s.

(** [int(s)], base ten; [None] stands for [ValueError]. *)
Definition int (s : string) : option Z :=
  let t := int_lstrip (int_rstrip s) in
  if startswith "-" t then option_map Z.opp (int_limited (tail t))
  else if startswith "+" t then int_limited (tail t)
  else int_limited t.

(** [str(n)] for a natural number. *)
Definition of_nat (n : nat) : string := NilZero.string_of_uint (Nat.to_uint n).

End PyStr.

(** ** Exceptions, printing and the file system *)

Inductive Exn : Type :=
| SystemExit (code : Z)
| AttributeError
| TypeError
| FileNotFoundError.

Inductive Result (A : Type) : Type :=
| Ok (a : A)
| Raise (e : Exn).

Arguments Ok {A} a.
Arguments Raise {A} e.

(** What the script can observe and change: the files (a path is mapped
    to the rows [csv.reader] yields for its text, one list of cells per
    line, [[]] for a blank line) and the lines printed to standard
    error.  The files are regular files that can be opened and whose
    bytes are text [csv.reader] reads to the end: a path that [open]
    refuses, bytes that are not UTF-8 and a field beyond the parser's
    size limit are outside this state. *)
Record World : Type := mkWorld {
  files : string -> option (list (list string));
  stderr : list string
}.

Definition M (A : Type) : Type := World -> Result A * World.

Definition ret {A} (a : A) : M A := fun w => (Ok a, w).

Definition bind {A B} (m : M A) (f : A -> M B) : M B :=
  fun w =>
    match m w with
    | (Ok a, w') => f a w'
    | (Raise e, w') => (Raise e, w')
    end.

Definition raise {A} (e : Exn) : M A := fun w => (Raise e, w).

Definition lift {A} (r : Result A) : M A := fun w => (r, w).

Definition when (b : bool) (m : M unit) : M unit := if b then m else ret tt.

Notation "x <- m ;; k" := (bind m (fun x => k))
  (at level 61, m at next level, right associativity).
Notation "m ;;; k" := (bind m (fun _ => k))
  (at level 61, right associativity).

(** [print(line, file=sys.stderr)] *)
Definition print_stderr (line : string) : M unit :=
  fun w => (Ok tt, mkWorld (files w) (stderr w ++ [line])).

(** [os.path.exists(path)] *)
Definition os_path_exists (path : string) : M bool :=
  fun w => (Ok (match files w path with Some _ => true | None => false end), w).

(** [csv.reader(open(path, newline=""))], read to the end. *)
Definition open_reader (path : string) : M (list (list string)) :=
  fun w =>
    match files w path with
    | Some rows => (Ok rows, w)
    | None => (Raise FileNotFoundError, w)
    end.

(** [err(msg, code)] *)
Definition err (msg : string) (code : Z) : M unit :=
  print_stderr ("ERROR: " ++ msg)%string ;;; raise (SystemExit code).

(** ** Python dictionaries *)

(** A key of a row: a column name, or [None] (the [restkey] of
    [csv.DictReader]). *)
Inductive Key : Type :=
| KStr (s : string)
| KNone.

Definition key_eqb (a b : Key) : bool :=
  match a, b with
  | KStr x, KStr y => String.eqb x y
  | KNone, KNone => true
  | _, _ => false
  end.

Module PyDict.
Section Dict.
Variable V : Type.

Definition t : Type := list (Key * V).

(** [d[k] = v]: a present key keeps its place. *)
Fixpoint set (k : Key) (v : V) (d : t) : t :=
  match d with
  | [] => [(k, v)]
  | (k', v') :: r => if key_eqb k k' then (k', v) :: r else (k', v') :: set k v r
  end.

(** [d.get(k)] *)
Fixpoint get (k : Key) (d : t) : option V :=
  match d with
  | [] => None
  | (k', v') :: r => if key_eqb k k' then Some v' else get k r
  end.

(** [dict(pairs)] *)
Definition of_pairs (pairs : list (Key * V)) : t :=
  fold_left (fun d kv => set (fst kv) (snd kv) d) pairs [].

Definition keys (d : t) : list Key := map fst d.
Definition values (d : t) : list V := map snd d.
End Dict.
End PyDict.

(** ** [csv.DictReader] *)

(** A value of a row: a cell, [None] (the [restval] of a short row) or
    the list of surplus cells of a long row. *)
Inductive Cell : Type :=
| CStr (s : string)
| CNone
| CList (l : list string).

Definition Row : Type := PyDict.t Cell.

Module DictReader.

(** The [fieldnames] property: the first row of the reader. *)
Definition fieldnames (rows : list (list string)) : option (list string) :=
  match rows with
  | [] => None
  | header :: _ => Some header
  end.

(** The dictionary [__next__] builds for one non-empty row. *)
Definition row_dict (names : list string) (row : list string) : Row :=
  let d := PyDict.of_pairs (combine (map KStr names) (map CStr row)) in
  let lf := length names in
  let lr := length row in
  if Nat.ltb lf lr then PyDict.set KNone (CList (skipn lf row)) d
  else if Nat.ltb lr lf then
    fold_left (fun d key => PyDict.set (KStr key) CNone d) (skipn lr names) d
  else d.

Definition is_blank (row : list string) : bool :=
  match row with [] => true | _ :: _ => false end.

(** The rows the iteration yields: blank rows are passed over. *)
Definition rows (names : list string) (data : list (list string)) : list Row :=
  map (row_dict names) (filter (fun r => negb (is_blank r)) data).

End DictReader.

(** ** [coerce_value] *)

Section Coerce.

(** The type of floating-point numbers and [float(s)]; [None] stands
    for [ValueError]. *)
Variable float : Type.
Variable py_float : string -> option float.

Inductive Value : Type :=
| VNone
| VBool (b : bool)
| VInt (z : Z)
| VFloat (x : float)
| VStr (s : string).

Definition Item : Type := PyDict.t Value.

(** Truth value of a cell. *)
Definition truthy (raw : Cell) : bool :=
  match raw with
  | CStr s => PyStr.nonempty s
  | CNone => false
  | CList l => match l with [] => false | _ :: _ => true end
  end.

(** [raw or ""] *)
Definition or_empty (raw : Cell) : Cell := if truthy raw then raw else CStr "".

(** [x.strip()]: only a [str] has the method. *)
Definition strip_method (x : Cell) : Result string :=
  match x with
  | CStr s => Ok (PyStr.strip s)
  | CNone => Raise AttributeError
  | CList _ => Raise AttributeError
  end.

Definition has_float_char (s : string) : bool :=
  existsb (fun ch => PyStr.contains ch s) ["."; "e"; "E"]%char.

Definition looks_int (s : string) : bool :=
  PyStr.isdigit s || (PyStr.startswith "-" s && PyStr.isdigit (PyStr.tail s)).

Definition coerce_value (raw : Cell) : Result Value :=
  match strip_method (or_empty raw) with
  | Raise e => Raise e
  | Ok s =>
      if String.eqb s "" then Ok VNone
      else
        let low := PyStr.lower s in
        if existsb (String.eqb low) ["true"; "false"] then Ok (VBool (String.eqb low "true"))
        else
          match (if looks_int s then PyStr.int s else None) with
          | Some z => Ok (VInt z)
          | None =>
              match (if has_float_char s then py_float s else None) with
              | Some x => Ok (VFloat x)
              | None => Ok (VStr s)
              end
          end
  end.

(** ** [read_csv_items] *)

(** The inner loop over [row.items()], from the dictionary [item]. *)
Fixpoint fill_item (cells : list (Key * Cell)) (item : Item) : Result Item :=
  match cells with
  | [] => Ok item
  | (k, v) :: rest =>
      if key_eqb k (KStr "name") then fill_item rest item
      else
        match coerce_value v with
        | Raise e => Raise e
        | Ok VNone => fill_item rest item
        | Ok cv => fill_item rest (PyDict.set k cv item)
        end
  end.

(** [row.get("name") or ""] *)
Definition name_cell (row : Row) : Cell :=
  or_empty (match PyDict.get (KStr "name") row with Some c => c | None => CNone end).

Definition mem (name : string) (seen : list string) : bool :=
  existsb (String.eqb name) seen.

(** [seen_names.add(name)] *)
Definition add (name : string) (seen : list string) : list string :=
  if mem name seen then seen else name :: seen.

Definition IngestResult : Type := (list Item * list string)%type.

(** The [for row_idx, row in enumerate(reader, start=2)] loop, from the
    current values of [items], [warnings] and [seen_names]. *)
Fixpoint loop (row_idx : nat) (rows : list Row)
         (items : list Item) (warnings : list string) (seen_names : list string)
  : M IngestResult :=
  match rows with
  | [] => ret (items, warnings)
  | row :: rest =>
      name <- lift (strip_method (name_cell row)) ;;
      if negb (PyStr.nonempty name) then
        loop (S row_idx) rest items
             (warnings ++ [("Line " ++ PyStr.of_nat row_idx ++ ": missing name; skipped")%string])
             seen_names
      else
        when (mem name seen_names)
             (err ("Duplicate name '" ++ name ++ "' found (line "
                     ++ PyStr.of_nat row_idx ++ ")")%string 2) ;;;
        item <- lift (fill_item row [(KStr "name", VStr name)]) ;;
        loop (S row_idx) rest (items ++ [item]) warnings (add name seen_names)
  end.

Definition falsy_names (names : option (list string)) : bool :=
  match names with
  | None => true
  | Some [] => true
  | Some (_ :: _) => false
  end.

Definition read_csv_items (path : string) : M IngestResult :=
  found <- os_path_exists path ;;
  when (negb found) (err ("source_path not found: " ++ path)%string 2) ;;;
  reader <- open_reader path ;;
  let fieldnames := DictReader.fieldnames reader in
  when (falsy_names fieldnames) (err "CSV missing header row" 2) ;;;
  match fieldnames with
  | None => raise TypeError
  | Some names =>
      when (negb (existsb (String.eqb "name") names))
           (err "CSV must include a 'name' column" 2) ;;;
      loop 2 (DictReader.rows names (List.tl reader)) [] [] []
  end.

End Coerce.

Arguments VNone {float}.
Arguments VBool {float} b.
Arguments VInt {float} z.
Arguments VStr {float} s.

(** ** [main] *)

(** [s.lstrip(chars)] and [s.rstrip(chars)] *)
Fixpoint lstrip_chars (chars s : string) : string :=
  match s with
  | String c r => if PyStr.contains c chars then lstrip_chars chars r else s
  | EmptyString => EmptyString
  end.

Fixpoint rstrip_chars (chars s : string) : string :=
  match s with
  | String c r =>
      match rstrip_chars chars r with
      | EmptyString => if PyStr.contains c chars then EmptyString else String c EmptyString
      | r' => String c r'
      end
  | EmptyString => EmptyString
  end.

(** [str(z)] for an integer. *)
Definition str_of_Z (z : Z) : string := NilZero.string_of_int (Z.to_int z).

(** [os.environ.get(key, default)] *)
Definition getenv (environ : string -> option string) (key default : string) : string :=
  match environ key with
  | Some v => v
  | None => default
  end.

(** The line of [main] that joins the base address and the endpoint. *)
Definition join_url (base_url endpoint : string) : string :=
  (rstrip_chars "/" base_url ++ "/" ++ lstrip_chars "/" endpoint)%string.

(** [d[key] = value] when [value] is not empty. *)
Definition set_if_given (key value : string) (d : PyDict.t string) : PyDict.t string :=
  if PyStr.nonempty value then PyDict.set (KStr key) value d else d.

Section Main.

Variable float : Type.
Variable py_float : string -> option float.

Local Unset Elimination Schemes.

(** The documents handed to [json.dumps] and to [requests]. *)
Inductive Json : Type :=
| JNull
| JBool (b : bool)
| JInt (z : Z)
| JFloat (x : float)
| JStr (s : string)
| JList (l : list Json)
| JDict (d : list (Key * Json)).

Local Set Elimination Schemes.

Definition value_json (v : Value float) : Json :=
  match v with
  | VNone => JNull
  | VBool b => JBool b
  | VInt z => JInt z
  | VFloat x => JFloat x
  | VStr s => JStr s
  end.

Definition item_json (item : Item float) : Json :=
  JDict (map (fun kv => (fst kv, value_json (snd kv))) item).

Definition strings_json (d : PyDict.t string) : Json :=
  JDict (map (fun kv => (fst kv, JStr (snd kv))) d).

(** [{"items": items}] *)
Definition payload_json (items : list (Item float)) : Json :=
  JDict [(KStr "items", JList (map item_json items))].

(** The arguments of [requests.post]. *)
Record Request : Type := mkRequest {
  req_url : string;
  req_params : PyDict.t string;
  req_headers : PyDict.t string;
  req_json : Json;
  req_timeout : Z
}.

(** What [main] reads of the response: [resp.status_code], [resp.json()]
    ([None] when it raises) and [resp.text]. *)
Record Response : Type := mkResponse {
  status_code : Z;
  json_body : option Json;
  text : string
}.

(** The outcome of [requests.post]: a response, a
    [requests.RequestException] with its text, or another exception. *)
Inductive PostResult : Type :=
| Responded (resp : Response)
| RequestException (msg : string)
| OtherException.

(** [json.dumps(doc, indent=2)] and the transport are library code. *)
Variable json_dumps : Json -> string.
Variable http_post : Request -> PostResult.

(** What the process can observe and change: the files and standard
    error, the environment, the texts printed on standard output (one per
    call of [print]) and the requests handed to the transport. *)
Record Proc : Type := mkProc {
  world : World;
  environ : string -> option string;
  stdout : list string;
  sent : list Request
}.

Inductive MainExn : Type :=
| Inner (e : Exn)
| ValueError
| UnboundLocalError
| Uncaught.

Inductive Outcome (A : Type) : Type :=
| Done (a : A)
| Failed (e : MainExn).

Arguments Done {A} a.
Arguments Failed {A} e.

Definition P (A : Type) : Type := Proc -> Outcome A * Proc.

Definition pret {A} (a : A) : P A := fun p => (Done a, p).

Definition pbind {A B} (m : P A) (f : A -> P B) : P B :=
  fun p =>
    match m p with
    | (Done a, p') => f a p'
    | (Failed e, p') => (Failed e, p')
    end.

Definition praise {A} (e : MainExn) : P A := fun p => (Failed e, p).

(** A computation on the files and standard error, run in the process. *)
Definition run {A} (m : M A) : P A :=
  fun p =>
    match m (world p) with
    | (Ok a, w') => (Done a, mkProc w' (environ p) (stdout p) (sent p))
    | (Raise e, w') => (Failed (Inner e), mkProc w' (environ p) (stdout p) (sent p))
    end.

Definition pwhen (b : bool) (m : P unit) : P unit := if b then m else pret tt.

Notation "x <~ m ;; k" := (pbind m (fun x => k))
  (at level 61, m at next level, right associativity).
Notation "m ;;~ k" := (pbind m (fun _ => k))
  (at level 61, right associativity).

(** [print(text)] *)
Definition print (line : string) : P unit :=
  fun p => (Done tt, mkProc (world p) (environ p) (stdout p ++ [line]) (sent p)).

Fixpoint print_all (lines : list string) : P unit :=
  match lines with
  | [] => pret tt
  | l :: rest => print l ;;~ print_all rest
  end.

(** [requests.post(...)]: the request goes to the transport. *)
Definition post (req : Request) : P PostResult :=
  fun p => (Done (http_post req),
            mkProc (world p) (environ p) (stdout p) (sent p ++ [req])).

Definition main : P Z :=
  fun p =>
    let env := environ p in
    let app_key := PyStr.strip (getenv env "MIQA_APP_KEY" "") in
    let base_url := PyStr.strip (getenv env "MIQA_BASE_URL" "") in
    let endpoint := PyStr.strip (getenv env "MIQA_ENDPOINT" "/api/batch_ds_upsert") in
    let source_path := PyStr.strip (getenv env "MIQA_SOURCE_PATH" ".miqa/samples.csv") in
    let source_format :=
      PyStr.lower (PyStr.strip (getenv env "MIQA_SOURCE_FORMAT" "csv")) in
    let pipeline_id := PyStr.strip (getenv env "MIQA_PIPELINE_ID" "") in
    let org_id := PyStr.strip (getenv env "MIQA_ORG_ID" "") in
    match PyStr.int (getenv env "MIQA_TIMEOUT" "60") with
    | None => (Failed ValueError, p)
    | Some timeout =>
        let dry_run :=
          existsb (String.eqb (PyStr.lower (PyStr.strip (getenv env "MIQA_DRY_RUN" ""))))
                  ["1"; "true"; "yes"] in
        (pwhen (negb (PyStr.nonempty app_key))
               (run (err "Missing MIQA_APP_KEY (secret: app_key)" 2)) ;;~
         pwhen (negb (PyStr.nonempty base_url))
               (run (err "Missing MIQA_BASE_URL (input: base_url)" 2)) ;;~
         pwhen (negb (PyStr.nonempty pipeline_id))
               (run (err "Missing MIQA_PIPELINE_ID (input: pipeline_id)" 2)) ;;~
         pwhen (negb (String.eqb source_format "csv"))
               (run (err ("Unsupported source_format '" ++ source_format
                            ++ "' (supported: csv)")%string 2)) ;;~
         let url := join_url base_url endpoint in
         let params :=
           set_if_given "org_id" org_id [(KStr "pipeline_id", pipeline_id)] in
         let headers :=
           [(KStr "Accept", "application/json");
            (KStr "Content-Type", "application/json");
            (KStr "app-key", app_key)] in
         let headers :=
           set_if_given "X-Miqa-GitHub-Run-Id" (getenv env "GITHUB_RUN_ID" "") headers in
         let headers :=
           set_if_given "X-Miqa-GitHub-Workflow" (getenv env "GITHUB_WORKFLOW" "") headers in
         let headers :=
           set_if_given "X-Miqa-GitHub-Job" (getenv env "GITHUB_JOB" "") headers in
         let headers :=
           set_if_given "X-Miqa-GitHub-Actor" (getenv env "GITHUB_ACTOR" "") headers in
         let headers :=
           set_if_given "X-Miqa-GitHub-Ref" (getenv env "GITHUB_REF" "") headers in
         let headers :=
           set_if_given "X-Miqa-GitHub-SHA" (getenv env "GITHUB_SHA" "") headers in
         let wf_version := PyStr.strip (getenv env "MIQA_WORKFLOW_VERSION" "") in
         let headers :=
           PyDict.set (KStr "User-Agent")
             (if PyStr.nonempty wf_version
              then ("miqa-github-workflows/" ++ wf_version ++ " (dataset-sync)")%string
              else "miqa-github-workflows (dataset-sync)")
             headers in
         result <~ run (read_csv_items py_float source_path) ;;
         let items := fst result in
         let warnings := snd result in
         print_all (map (fun w => ("WARN: " ++ w)%string) warnings) ;;~
         let payload := payload_json items in
         if dry_run then
           print "DRY RUN" ;;~
           print ("POST " ++ url)%string ;;~
           print ("Params: " ++ json_dumps (strings_json params))%string ;;~
           print ("Headers: "
                    ++ json_dumps (strings_json (PyDict.set (KStr "app-key") "***" headers)))%string ;;~
           print ("Body: {'items': [...]}  (items=" ++ PyStr.of_nat (length items) ++ ")")%string ;;~
           print ("Body: " ++ json_dumps payload)%string ;;~
           pret 0%Z
         else
           answer <~ post (mkRequest url params headers payload timeout) ;;
           match answer with
           | OtherException => praise Uncaught
           | RequestException msg =>
               run (err ("Request failed: " ++ msg)%string 1) ;;~ praise UnboundLocalError
           | Responded resp =>
               print ("HTTP " ++ str_of_Z (status_code resp))%string ;;~
               print (match json_body resp with
                      | Some doc => json_dumps doc
                      | None => text resp
                      end) ;;~
               pret (if Z.leb 200 (status_code resp) && Z.ltb (status_code resp) 300
                     then 0%Z else 1%Z)
           end) p
    end.


End Main.

Arguments Done {A} a.
Arguments Failed {A} e.
Arguments RequestException {float} msg.
Arguments OtherException {float}.

(** ** Reference notions used by the statements *)

(** The number a string of decimal digits denotes. *)
Fixpoint decimal_from (acc : Z) (s : string) : Z :=
  match s with
  | String c r => decimal_from (10 * acc + PyStr.digit_value c) r
  | EmptyString => acc
  end.

Definition decimal_value (s : string) : Z := decimal_from 0 s.

(** One or more characters, each of them one of ["0"] .. ["9"]. *)
Definition all_decimal (s : string) : bool :=
  PyStr.nonempty s && PyStr.forallb PyStr.isdecimal s.

(** The upper-case form of a lower-case ASCII letter. *)
Definition capital (c : ascii) : ascii := ascii_of_N (PyStr.code c - 32).

(** [spells t s]: [s] is the lower-case word [t] up to the case of its
    letters. *)
Fixpoint spells (t s : string) : bool :=
  match t, s with
  | EmptyString, EmptyString => true
  | String a t', String b s' =>
      (Ascii.eqb b a || Ascii.eqb b (capital a)) && spells t' s'
  | _, _ => false
  end.

(** A float parser for the examples: plain decimal literals with a
    point, read as exact rationals (exponents, infinities, NaN and the
    rounding to binary64 are left out). *)
Module Sample.

Fixpoint split_point (s : string) : option (string * string) :=
  match s with
  | EmptyString => None
  | String c r =>
      if Ascii.eqb c "." then Some (EmptyString, r)
      else match split_point r with
           | Some (a, b) => Some (String c a, b)
           | None => None
           end
  end.

Fixpoint pow10 (n : nat) : positive :=
  match n with
  | O => 1%positive
  | S m => (10 * pow10 m)%positive
  end.

Definition unsigned (s : string) : option Q :=
  match split_point s with
  | Some (ip, fp) =>
      if PyStr.forallb PyStr.isdecimal ip && PyStr.forallb PyStr.isdecimal fp
         && PyStr.nonempty (ip ++ fp)
      then Some (decimal_value (ip ++ fp) # pow10 (String.length fp))
      else None
  | None => None
  end.

Definition float (s : string) : option Q :=
  if PyStr.startswith "-" s then option_map Qopp (unsigned (PyStr.tail s))
  else unsigned s.

End Sample.

(** Optional leading ["-"], then one or more decimal digits, nothing else. *)
Definition int_syntax (s : string) : bool :=
  all_decimal s || (PyStr.startswith "-" s && all_decimal (PyStr.tail s)).

(** The integer such a string denotes. *)
Definition int_denotation (s : string) : Z :=
  if PyStr.startswith "-" s then (- decimal_value (PyStr.tail s))%Z
  else decimal_value s.


Definition not_space (c : ascii) : bool := negb (PyStr.isspace c).

Definition lower_letter (a : ascii) : bool := PyStr.between 97 122 (PyStr.code a).

(** The lines the script prints or collects. *)
Definition warning_line (row_idx : nat) : string :=
  ("Line " ++ PyStr.of_nat row_idx ++ ": missing name; skipped")%string.

Definition duplicate_line (name : string) (row_idx : nat) : string :=
  ("ERROR: " ++ ("Duplicate name '" ++ name ++ "' found (line "
                   ++ PyStr.of_nat row_idx ++ ")"))%string.

Definition not_found_line (path : string) : string :=
  ("ERROR: " ++ ("source_path not found: " ++ path))%string.

Definition no_header_line : string := "ERROR: CSV missing header row".

Definition no_name_line : string := "ERROR: CSV must include a 'name' column".

(** A row in which every absent cell is replaced by the empty string. *)
Definition absent_as_empty (c : Cell) : Cell :=
  match c with
  | CNone => CStr ""
  | _ => c
  end.

Definition row_absent_as_empty (row : Row) : Row :=
  map (fun kv => (fst kv, absent_as_empty (snd kv))) row.

(** A state with one file and nothing printed yet. *)
Definition one_file (path : string) (rows : list (list string)) : World :=
  mkWorld (fun p => if String.eqb p path then Some rows else None) [].

Section Invariant.

Variable float : Type.

(** A record is well formed: it has the text [n] under "name" and no
    key with the value [None]. *)
Definition named (n : string) (item : Item float) : Prop :=
  PyDict.get (KStr "name") item = Some (VStr n) /\
  forall k, PyDict.get k item <> Some VNone.

Definition names_of (items : list (Item float)) : list (option (Value float)) :=
  map (PyDict.get (KStr "name")) items.

(** What holds of the records gathered so far and of the names seen. *)
Definition gathered (items : list (Item float)) (seen : list string) : Prop :=
  (forall item, In item items -> exists n, n <> "" /\ named n item) /\
  NoDup (names_of items) /\
  (forall n, In (Some (VStr n)) (names_of items) -> mem n seen = true).

End Invariant.

(** The trimmed name of a row (empty when there is none). *)
Definition row_name (row : Row) : string :=
  match strip_method (name_cell row) with
  | Ok s => s
  | Raise _ => EmptyString
  end.

(** A cell that is not a list of surplus cells. *)
Definition plain_cell (c : Cell) : bool :=
  match c with
  | CList _ => false
  | _ => true
  end.

Definition plain_row (row : Row) : Prop :=
  Forall (fun kv => plain_cell (snd kv) = true) row.

(** The rows that have a name. *)
Definition named_rows (rows : list Row) : list Row :=
  filter (fun r => PyStr.nonempty (row_name r)) rows.

(** The warnings for the rows without a name, counting rows from
    [row_idx]. *)
Fixpoint blank_warnings (row_idx : nat) (rows : list Row) : list string :=
  match rows with
  | [] => []
  | r :: rest =>
      if PyStr.nonempty (row_name r) then blank_warnings (S row_idx) rest
      else warning_line row_idx :: blank_warnings (S row_idx) rest
  end.

(** The record built from a row that has a name. *)
Definition item_of (float : Type) (py_float : string -> option float) (row : Row)
  : Item float :=
  match fill_item py_float row [(KStr "name", VStr (row_name row))] with
  | Ok item => item
  | Raise _ => []
  end.

(** The value a cell leaves in a record, if any. *)
Definition field_of (float : Type) (py_float : string -> option float) (c : Cell)
  : option (Value float) :=
  match coerce_value py_float c with
  | Ok VNone => None
  | Ok v => Some v
  | Raise _ => None
  end.


(** ** The settings [main] reads and what it builds from them *)

(** A setting: the environment variable, or its default, trimmed. *)
Definition setting (env : string -> option string) (key default : string) : string :=
  PyStr.strip (getenv env key default).

Definition dry_run_flag (env : string -> option string) : bool :=
  existsb (String.eqb (PyStr.lower (setting env "MIQA_DRY_RUN" ""))) ["1"; "true"; "yes"].

(** The message of the first check of the settings that fails. *)
Definition config_problem (env : string -> option string) : option string :=
  if negb (PyStr.nonempty (setting env "MIQA_APP_KEY" ""))
  then Some "Missing MIQA_APP_KEY (secret: app_key)"
  else if negb (PyStr.nonempty (setting env "MIQA_BASE_URL" ""))
  then Some "Missing MIQA_BASE_URL (input: base_url)"
  else if negb (PyStr.nonempty (setting env "MIQA_PIPELINE_ID" ""))
  then Some "Missing MIQA_PIPELINE_ID (input: pipeline_id)"
  else if negb (String.eqb (PyStr.lower (setting env "MIQA_SOURCE_FORMAT" "csv")) "csv")
  then Some ("Unsupported source_format '"
               ++ PyStr.lower (setting env "MIQA_SOURCE_FORMAT" "csv")
               ++ "' (supported: csv)")%string
  else None.

Definition request_url (env : string -> option string) : string :=
  join_url (setting env "MIQA_BASE_URL" "") (setting env "MIQA_ENDPOINT" "/api/batch_ds_upsert").

Definition request_params (env : string -> option string) : PyDict.t string :=
  set_if_given "org_id" (setting env "MIQA_ORG_ID" "")
               [(KStr "pipeline_id", setting env "MIQA_PIPELINE_ID" "")].

Definition user_agent (env : string -> option string) : string :=
  if PyStr.nonempty (setting env "MIQA_WORKFLOW_VERSION" "")
  then ("miqa-github-workflows/" ++ setting env "MIQA_WORKFLOW_VERSION" ""
          ++ " (dataset-sync)")%string
  else "miqa-github-workflows (dataset-sync)".

Definition request_headers (env : string -> option string) : PyDict.t string :=
  PyDict.set (KStr "User-Agent") (user_agent env)
    (set_if_given "X-Miqa-GitHub-SHA" (getenv env "GITHUB_SHA" "")
    (set_if_given "X-Miqa-GitHub-Ref" (getenv env "GITHUB_REF" "")
    (set_if_given "X-Miqa-GitHub-Actor" (getenv env "GITHUB_ACTOR" "")
    (set_if_given "X-Miqa-GitHub-Job" (getenv env "GITHUB_JOB" "")
    (set_if_given "X-Miqa-GitHub-Workflow" (getenv env "GITHUB_WORKFLOW" "")
    (set_if_given "X-Miqa-GitHub-Run-Id" (getenv env "GITHUB_RUN_ID" "")
       [(KStr "Accept", "application/json");
        (KStr "Content-Type", "application/json");
        (KStr "app-key", setting env "MIQA_APP_KEY" "")])))))).

Definition warn_lines (warnings : list string) : list string :=
  map (fun w => ("WARN: " ++ w)%string) warnings.

(** The exit code [main] returns for a status code. *)
Definition code_of_status (status : Z) : Z :=
  if Z.leb 200 status && Z.ltb status 300 then 0%Z else 1%Z.

(** [n] times the character "/". *)
Fixpoint slashes (n : nat) : string :=
  match n with
  | O => EmptyString
  | S m => String "/" (slashes m)
  end.

Section MainNotions.

Variable float : Type.
Variable json_dumps : Json float -> string.

Definition request_of (env : string -> option string)
           (items : list (Item float)) (timeout : Z) : Request float :=
  mkRequest (request_url env) (request_params env) (request_headers env)
            (payload_json items) timeout.

(** What a dry run prints after the warnings. *)
Definition dry_run_report (env : string -> option string) (items : list (Item float))
  : list string :=
  ["DRY RUN";
   ("POST " ++ request_url env)%string;
   ("Params: " ++ json_dumps (strings_json float (request_params env)))%string;
   ("Headers: " ++ json_dumps (strings_json float
                                 (PyDict.set (KStr "app-key") "***" (request_headers env))))%string;
   ("Body: {'items': [...]}  (items=" ++ PyStr.of_nat (length items) ++ ")")%string;
   ("Body: " ++ json_dumps (payload_json items))%string].

(** The state after [err] has printed its line. *)
Definition after_error (p : Proc float) (line : string) : Proc float :=
  mkProc (mkWorld (files (world p)) (stderr (world p) ++ [line]))
         (environ p) (stdout p) (sent p).

(** What is printed for a response. *)
Definition response_report (resp : Response float) : list string :=
  [("HTTP " ++ str_of_Z (status_code resp))%string;
   match json_body resp with
   | Some doc => json_dumps doc
   | None => text resp
   end].

End MainNotions.

(** * Properties *)

(** ** Characters and strings *)

Ltac each_char c := destruct c as [[|] [|] [|] [|] [|] [|] [|] [|]].

Lemma isdigit_char_not_space c :
  PyStr.isdigit_char c = true -> PyStr.isspace c = false.
Proof. each_char c; vm_compute; congruence. Qed.

Lemma isdecimal_isdigit c :
  PyStr.isdecimal c = true -> PyStr.isdigit_char c = true.
Proof. unfold PyStr.isdigit_char. intros ->. reflexivity. Qed.

Lemma isdigit_char_cases c :
  PyStr.isdigit_char c = true ->
  Ascii.eqb c "-" = false /\ Ascii.eqb c "+" = false /\ Ascii.eqb c "_" = false.
Proof. each_char c; vm_compute; intuition congruence. Qed.

Lemma isdecimal_lower c :
  PyStr.isdecimal c = true ->
  Ascii.eqb (PyStr.lower_char c) "t" = false /\
  Ascii.eqb (PyStr.lower_char c) "f" = false.
Proof. each_char c; vm_compute; intuition congruence. Qed.

Lemma forallb_impl (p q : ascii -> bool) s :
  (forall c, p c = true -> q c = true) ->
  PyStr.forallb p s = true -> PyStr.forallb q s = true.
Proof.
  intros Hpq. induction s as [|c r IH]; simpl; auto.
  intros H. apply andb_true_iff in H as [Hc Hr].
  rewrite (Hpq _ Hc), (IH Hr). reflexivity.
Qed.

Lemma rstrip_fixed s :
  PyStr.forallb not_space s = true -> PyStr.rstrip s = s.
Proof.
  induction s as [|c r IH]; simpl; auto.
  intros H. apply andb_true_iff in H as [Hc Hr].
  rewrite (IH Hr). unfold not_space in Hc. apply negb_true_iff in Hc.
  destruct r; [rewrite Hc|]; reflexivity.
Qed.

Lemma lstrip_fixed s :
  PyStr.forallb not_space s = true -> PyStr.lstrip s = s.
Proof.
  destruct s as [|c r]; simpl; auto.
  intros H. apply andb_true_iff in H as [Hc _].
  unfold not_space in Hc. apply negb_true_iff in Hc. rewrite Hc. reflexivity.
Qed.

Lemma strip_fixed s :
  PyStr.forallb not_space s = true -> PyStr.strip s = s.
Proof.
  intros H. unfold PyStr.strip. rewrite (rstrip_fixed _ H). apply lstrip_fixed, H.
Qed.

Lemma rstrip_spaces s :
  PyStr.forallb PyStr.isspace s = true -> PyStr.rstrip s = "".
Proof.
  induction s as [|c r IH]; simpl; auto.
  intros H. apply andb_true_iff in H as [Hc Hr].
  rewrite (IH Hr), Hc. reflexivity.
Qed.

Lemma strip_spaces s :
  PyStr.forallb PyStr.isspace s = true -> PyStr.strip s = "".
Proof. intros H. unfold PyStr.strip. rewrite (rstrip_spaces _ H). reflexivity. Qed.

Lemma digits_not_space s :
  PyStr.forallb PyStr.isdigit_char s = true -> PyStr.forallb not_space s = true.
Proof.
  apply forallb_impl. intros c H. unfold not_space.
  rewrite (isdigit_char_not_space _ H). reflexivity.
Qed.

(** ** [int] on the strings that reach it *)


Lemma int_digits_inv s : forall acc z,
  PyStr.forallb PyStr.isdigit_char s = true ->
  PyStr.int_digits acc s = Some z ->
  PyStr.forallb PyStr.isdecimal s = true /\ z = decimal_from acc s.
Proof.
  induction s as [|c r IH]; simpl; intros acc z H Hz.
  - split; congruence.
  - apply andb_true_iff in H as [Hc Hr].
    destruct (PyStr.isdecimal c) eqn:Hd.
    + apply (IH _ _ Hr Hz).
    + destruct (isdigit_char_cases _ Hc) as (_ & _ & Hu).
      rewrite Hu in Hz. discriminate.
Qed.


Lemma int_unsigned_inv s z :
  PyStr.isdigit s = true -> PyStr.int_unsigned s = Some z ->
  all_decimal s = true /\ z = decimal_value s.
Proof.
  unfold PyStr.isdigit, all_decimal, decimal_value.
  destruct s as [|c r]; simpl; [discriminate|].
  intros H Hz. apply andb_true_iff in H as [Hc Hr].
  destruct (PyStr.isdecimal c) eqn:Hd; [|discriminate].
  destruct (int_digits_inv _ _ Hr Hz) as [Hall ->]. rewrite Hall. auto.
Qed.

Lemma startswith_char (a : ascii) s :
  PyStr.startswith (String a "") s =
  match s with String c _ => Ascii.eqb c a | EmptyString => false end.
Proof.
  unfold PyStr.startswith. destruct s as [|c r]; simpl; auto.
  destruct (ascii_dec a c) as [->|Hne].
  - rewrite Ascii.eqb_refl. destruct r; reflexivity.
  - symmetry. apply Ascii.eqb_neq. congruence.
Qed.

Lemma isdigit_char_not_int_space c :
  PyStr.isdigit_char c = true -> negb (PyStr.int_space c) = true.
Proof. each_char c; vm_compute; congruence. Qed.

Lemma int_rstrip_fixed s :
  PyStr.forallb (fun c => negb (PyStr.int_space c)) s = true ->
  PyStr.int_rstrip s = s.
Proof.
  induction s as [|c r IH]; simpl; auto.
  intros H. apply andb_true_iff in H as [Hc Hr].
  rewrite (IH Hr). apply negb_true_iff in Hc.
  destruct r; [rewrite Hc|]; reflexivity.
Qed.

Lemma int_lstrip_fixed s :
  PyStr.forallb (fun c => negb (PyStr.int_space c)) s = true ->
  PyStr.int_lstrip s = s.
Proof.
  destruct s as [|c r]; simpl; auto.
  intros H. apply andb_true_iff in H as [Hc _].
  apply negb_true_iff in Hc. rewrite Hc. reflexivity.
Qed.

Lemma int_strip_fixed s :
  PyStr.forallb (fun c => negb (PyStr.int_space c)) s = true ->
  PyStr.int_lstrip (PyStr.int_rstrip s) = s.
Proof.
  intros H. rewrite (int_rstrip_fixed _ H). apply int_lstrip_fixed, H.
Qed.

Lemma digits_not_int_space s :
  PyStr.forallb PyStr.isdigit_char s = true ->
  PyStr.forallb (fun c => negb (PyStr.int_space c)) s = true.
Proof. apply forallb_impl, isdigit_char_not_int_space. Qed.

Lemma int_limited_some s z :
  PyStr.int_limited s = Some z <->
  (PyStr.count_digits s <= PyStr.int_max_str_digits)%N /\
  PyStr.int_unsigned s = Some z.
Proof.
  unfold PyStr.int_limited.
  destruct (N.ltb_spec PyStr.int_max_str_digits (PyStr.count_digits s)) as [Hlt|Hle].
  - split; [discriminate|]. intros [Hle _]. exfalso. apply (N.lt_irrefl (PyStr.count_digits s)).
    eapply N.le_lt_trans; eassumption.
  - split; [intros H; split; assumption | intros [_ H]; exact H].
Qed.

Lemma count_digits_minus r :
  PyStr.count_digits (String "-" r) = PyStr.count_digits r.
Proof. reflexivity. Qed.

Lemma int_of_digits s :
  PyStr.isdigit s = true -> PyStr.int s = PyStr.int_limited s.
Proof.
  intros H. unfold PyStr.int. unfold PyStr.isdigit in H.
  apply andb_true_iff in H as [Hn Hd].
  rewrite (int_strip_fixed _ (digits_not_int_space _ Hd)).
  rewrite !startswith_char. destruct s as [|c r]; [discriminate|].
  simpl in Hd. apply andb_true_iff in Hd as [Hc _].
  destruct (isdigit_char_cases _ Hc) as (-> & -> & _). reflexivity.
Qed.

Lemma int_of_minus_digits r :
  PyStr.isdigit r = true ->
  PyStr.int (String "-" r) = option_map Z.opp (PyStr.int_limited r).
Proof.
  intros H. unfold PyStr.int. unfold PyStr.isdigit in H.
  apply andb_true_iff in H as [Hn Hd].
  rewrite int_strip_fixed; [rewrite startswith_char; reflexivity|].
  change (PyStr.forallb (fun c => negb (PyStr.int_space c)) (String "-" r))
    with (PyStr.forallb (fun c => negb (PyStr.int_space c)) r).
  apply (digits_not_int_space _ Hd).
Qed.

Lemma all_decimal_isdigit s : all_decimal s = true -> PyStr.isdigit s = true.
Proof.
  unfold all_decimal, PyStr.isdigit. intros H.
  apply andb_true_iff in H as [-> Hd]. simpl.
  apply (forallb_impl _ _ _ isdecimal_isdigit Hd).
Qed.

Lemma all_decimal_not_minus s :
  all_decimal s = true -> PyStr.startswith "-" s = false.
Proof.
  intros H. apply all_decimal_isdigit in H. unfold PyStr.isdigit in H.
  rewrite startswith_char. destruct s as [|c r]; auto.
  simpl in H. apply andb_true_iff in H as [Hc _].
  apply (isdigit_char_cases _ Hc).
Qed.

Lemma startswith_minus_inv s :
  PyStr.startswith "-" s = true -> s = String "-" (PyStr.tail s).
Proof.
  rewrite startswith_char. destruct s as [|c r]; [discriminate|].
  intros H. apply Ascii.eqb_eq in H. subst. reflexivity.
Qed.

(** ** Case folding *)

Lemma lower_char_letter a :
  lower_letter a = true ->
  forall c, Ascii.eqb (PyStr.lower_char c) a = Ascii.eqb c a || Ascii.eqb c (capital a).
Proof.
  each_char a; intros Ha; try discriminate Ha; clear Ha;
    intros c; each_char c; reflexivity.
Qed.

Lemma lower_spells t : forall s,
  PyStr.forallb lower_letter t = true ->
  String.eqb (PyStr.lower s) t = spells t s.
Proof.
  induction t as [|a t IH]; intros [|c s] H; simpl; auto.
  apply andb_true_iff in H as [Ha Ht].
  rewrite (lower_char_letter _ Ha), (IH _ Ht). reflexivity.
Qed.

Lemma lower_true s : String.eqb (PyStr.lower s) "true" = spells "true" s.
Proof. apply lower_spells. reflexivity. Qed.

Lemma lower_false s : String.eqb (PyStr.lower s) "false" = spells "false" s.
Proof. apply lower_spells. reflexivity. Qed.

Lemma spells_true_not_false s : spells "true" s = true -> spells "false" s = false.
Proof.
  destruct s as [|c s]; simpl; auto. intros H.
  apply andb_true_iff in H as [Hc _].
  replace (Ascii.eqb c "f" || Ascii.eqb c (capital "f")) with false; auto.
  each_char c; vm_compute in Hc; try discriminate Hc; reflexivity.
Qed.

(** ** [coerce_value] on strings *)

Section CoerceProps.

Variable float : Type.
Variable py_float : string -> option float.

Local Abbreviation coerce := (coerce_value py_float).

(** On a [str], [coerce_value] is a case analysis of the trimmed text. *)
Lemma coerce_value_str raw :
  coerce (CStr raw) =
  let s := PyStr.strip raw in
  if String.eqb s "" then Ok VNone
  else if spells "true" s then Ok (VBool true)
  else if spells "false" s then Ok (VBool false)
  else match (if looks_int s then PyStr.int s else None) with
       | Some z => Ok (VInt z)
       | None =>
           match (if has_float_char s then py_float s else None) with
           | Some x => Ok (VFloat x)
           | None => Ok (VStr s)
           end
       end.
Proof.
  unfold coerce_value, or_empty, truthy.
  assert (E : strip_method (if PyStr.nonempty raw then CStr raw else CStr "")
              = Ok (PyStr.strip raw)) by (destruct raw; reflexivity).
  rewrite E. cbv zeta. simpl existsb.
  rewrite lower_true, lower_false.
  destruct (String.eqb (PyStr.strip raw) ""); auto.
  destruct (spells "true" (PyStr.strip raw)) eqn:Ht; simpl; auto.
  rewrite orb_false_r.
  destruct (spells "false" (PyStr.strip raw)); reflexivity.
Qed.

Lemma looks_int_inv s z :
  looks_int s = true -> PyStr.int s = Some z ->
  int_syntax s = true /\ z = int_denotation s /\
  (PyStr.count_digits s <= PyStr.int_max_str_digits)%N.
Proof.
  unfold looks_int, int_syntax, int_denotation. intros H Hz.
  apply orb_true_iff in H as [H|H].
  - rewrite (int_of_digits _ H) in Hz.
    apply int_limited_some in Hz as [Hle Hz].
    destruct (int_unsigned_inv _ H Hz) as [Hall ->].
    rewrite Hall, (all_decimal_not_minus _ Hall). auto.
  - apply andb_true_iff in H as [Hm Hd].
    rewrite (startswith_minus_inv _ Hm) in Hz.
    rewrite (int_of_minus_digits _ Hd) in Hz.
    destruct (PyStr.int_limited (PyStr.tail s)) as [v|] eqn:Hv; [|discriminate].
    apply int_limited_some in Hv as [Hle Hv].
    destruct (int_unsigned_inv _ Hd Hv) as [Hall ->].
    rewrite Hm, Hall, orb_true_r. simpl in Hz.
    assert (Hc : PyStr.count_digits s = PyStr.count_digits (PyStr.tail s)).
    { rewrite (startswith_minus_inv _ Hm) at 1. apply count_digits_minus. }
    rewrite Hc. repeat split; congruence.
Qed.




Lemma not_int_syntax s :
  int_syntax s = false -> (if looks_int s then PyStr.int s else None) = None.
Proof.
  intros H. destruct (looks_int s) eqn:Hl; auto.
  destruct (PyStr.int s) as [z|] eqn:Hz; auto.
  destruct (looks_int_inv _ Hl Hz) as [Hs _]. congruence.
Qed.

End CoerceProps.

(** ** Dictionaries *)

Lemma key_eqb_eq a b : key_eqb a b = true <-> a = b.
Proof.
  destruct a as [x|], b as [y|]; simpl; split; intros H;
    try discriminate; try reflexivity.
  - apply String.eqb_eq in H. congruence.
  - injection H as ->. apply String.eqb_refl.
Qed.

Lemma key_eqb_refl a : key_eqb a a = true.
Proof. apply key_eqb_eq. reflexivity. Qed.

Lemma key_eqb_trans_false a b c :
  key_eqb a b = true -> key_eqb c b = false -> key_eqb c a = false.
Proof.
  intros Hab Hcb. apply key_eqb_eq in Hab. subst. exact Hcb.
Qed.

Section DictProps.
Variable V : Type.

Lemma get_set_same k (v : V) d : PyDict.get k (PyDict.set k v d) = Some v.
Proof.
  induction d as [|[k' v'] r IH]; simpl.
  - rewrite key_eqb_refl. reflexivity.
  - destruct (key_eqb k k') eqn:E; simpl; rewrite E; auto.
Qed.

Lemma get_set_other k k' (v : V) d :
  key_eqb k' k = false -> PyDict.get k' (PyDict.set k v d) = PyDict.get k' d.
Proof.
  intros Hne. induction d as [|[k0 v0] r IH]; simpl.
  - rewrite Hne. reflexivity.
  - destruct (key_eqb k k0) eqn:E; simpl.
    + apply key_eqb_eq in E. subst k0. rewrite Hne. reflexivity.
    + destruct (key_eqb k' k0); auto.
Qed.

Lemma get_set_cases k k' (v : V) d :
  PyDict.get k' (PyDict.set k v d) = Some v \/
  PyDict.get k' (PyDict.set k v d) = PyDict.get k' d.
Proof.
  destruct (key_eqb k' k) eqn:E.
  - apply key_eqb_eq in E. subst. left. apply get_set_same.
  - right. apply get_set_other, E.
Qed.

End DictProps.

(** ** The seen-names set *)

Lemma mem_add name other seen :
  mem name (add other seen) = String.eqb name other || mem name seen.
Proof.
  unfold add. destruct (mem other seen) eqn:E; simpl; auto.
  destruct (String.eqb name other) eqn:En; auto.
  apply String.eqb_eq in En. subst. auto.
Qed.

(** ** One turn of the loops *)

Section IngestProps.

Variable float : Type.
Variable py_float : string -> option float.

Local Abbreviation Item := (Item float).
Local Abbreviation name_key := (KStr "name").

Lemma fill_item_named n cells : forall item item',
  named n item ->
  fill_item py_float cells item = Ok item' ->
  named n item'.
Proof.
  induction cells as [|[k v] rest IH]; simpl; intros item item' Hn H.
  - congruence.
  - destruct (key_eqb k name_key) eqn:Ek; [eauto|].
    destruct (coerce_value py_float v) as [cv|e] eqn:Ec; [|discriminate].
    assert (Hset : cv <> VNone -> named n (PyDict.set k cv item)).
    { intros Hcv. destruct Hn as [Hname Hnone]. split.
      - rewrite get_set_other; auto.
        destruct (key_eqb name_key k) eqn:E; auto.
        apply key_eqb_eq in E. subst k. discriminate Ek.
      - intros k'. destruct (get_set_cases k k' cv item) as [-> | ->]; auto.
        congruence. }
    destruct cv; [apply (IH _ _ Hn H) | | | |];
      (apply (IH _ _ (Hset ltac:(discriminate)) H)).
Qed.

Lemma named_start n : named n [(name_key, @VStr float n)].
Proof.
  split; [reflexivity|]. intros k. simpl.
  destruct (key_eqb k name_key); discriminate.
Qed.

(** The loop body, case by case. *)
Lemma loop_cons idx row rest items warnings seen w :
  loop py_float idx (row :: rest) items warnings seen w =
  match strip_method (name_cell row) with
  | Raise e => (Raise e, w)
  | Ok name =>
      if PyStr.nonempty name then
        if mem name seen then
          (Raise (SystemExit 2),
           mkWorld (files w) (stderr w ++ [duplicate_line name idx]))
        else
          match fill_item py_float row [(name_key, VStr name)] with
          | Raise e => (Raise e, w)
          | Ok item => loop py_float (S idx) rest (items ++ [item]) warnings
                            (add name seen) w
          end
      else loop py_float (S idx) rest items (warnings ++ [warning_line idx]) seen w
  end.
Proof.
  simpl. unfold bind, lift.
  destruct (strip_method (name_cell row)) as [name|e]; auto.
  destruct (PyStr.nonempty name); simpl; auto.
  unfold when, err, bind, print_stderr, raise, ret.
  destruct (mem name seen); simpl; auto.
Qed.

(** A blank name: one warning, no record, and the loop goes on. *)
Lemma loop_blank_name idx row rest items warnings seen w :
  strip_method (name_cell row) = Ok "" ->
  loop py_float idx (row :: rest) items warnings seen w =
  loop py_float (S idx) rest items (warnings ++ [warning_line idx]) seen w.
Proof. intros H. rewrite loop_cons, H. reflexivity. Qed.


(** The loop leaves the files alone and its result does not depend on
    the state it runs in. *)
Lemma loop_world rows : forall idx items warnings seen w,
  files (snd (loop py_float idx rows items warnings seen w)) = files w /\
  forall w2, fst (loop py_float idx rows items warnings seen w2)
             = fst (loop py_float idx rows items warnings seen w).
Proof.
  induction rows as [|row rest IH]; intros idx items warnings seen w.
  - split; reflexivity.
  - split; [|intros w2; rewrite (loop_cons _ _ _ _ _ _ w2)]; rewrite loop_cons;
      destruct (strip_method (name_cell row)) as [name|e]; auto;
      destruct (PyStr.nonempty name); try apply IH;
      destruct (mem name seen); auto;
      destruct (fill_item py_float row [(name_key, VStr name)]); auto; apply IH.
Qed.

Lemma gathered_step (items : list Item) seen name (item : Item) :
  gathered items seen ->
  PyStr.nonempty name = true ->
  mem name seen = false ->
  named name item ->
  gathered (items ++ [item]) (add name seen).
Proof.
  intros (Hall & Hnd & Hseen) Hne Hm Hn. split; [|split].
  - intros it Hin. apply in_app_or in Hin as [Hin|[<-|[]]]; auto.
    exists name. split; auto. intros ->. discriminate Hne.
  - unfold names_of. rewrite map_app. simpl. apply NoDup_app; auto.
    + constructor; [intros []|constructor].
    + intros v Hv [<-|[]]. rewrite (proj1 Hn) in Hv.
      apply Hseen in Hv. congruence.
  - intros n Hin. unfold names_of in Hin. rewrite map_app in Hin.
    rewrite mem_add. apply in_app_or in Hin as [Hin|[Hin|[]]].
    + rewrite (Hseen _ Hin). apply orb_true_r.
    + rewrite (proj1 Hn) in Hin. injection Hin as ->.
      rewrite String.eqb_refl. reflexivity.
Qed.

Lemma loop_gathered rows : forall idx items warnings seen w items' warnings' w',
  gathered items seen ->
  loop py_float idx rows items warnings seen w = (Ok (items', warnings'), w') ->
  exists seen', gathered items' seen'.
Proof.
  induction rows as [|row rest IH]; intros idx items warnings seen w items' warnings' w' Hg H.
  - injection H as <- _ _. eauto.
  - rewrite loop_cons in H.
    destruct (strip_method (name_cell row)) as [name|e]; [|discriminate].
    destruct (PyStr.nonempty name) eqn:Hne; [|eauto].
    destruct (mem name seen) eqn:Hm; [discriminate|].
    destruct (fill_item py_float row [(name_key, VStr name)]) as [item|e] eqn:Hf;
      [|discriminate].
    apply (IH _ _ _ _ _ _ _ _ (gathered_step Hg Hne Hm
                                 (fill_item_named _ (named_start name) Hf)) H).
Qed.

(** [read_csv_items], case by case. *)
Lemma read_csv_items_eq path w :
  read_csv_items py_float path w =
  match files w path with
  | None =>
      (Raise (SystemExit 2), mkWorld (files w) (stderr w ++ [not_found_line path]))
  | Some [] | Some ([] :: _) =>
      (Raise (SystemExit 2), mkWorld (files w) (stderr w ++ [no_header_line]))
  | Some ((_ :: _) as names :: data) =>
      if existsb (String.eqb "name") names
      then loop py_float 2 (DictReader.rows names data) [] [] [] w
      else (Raise (SystemExit 2), mkWorld (files w) (stderr w ++ [no_name_line]))
  end.
Proof.
  unfold read_csv_items, bind, os_path_exists, open_reader.
  destruct (files w path) as [rows|] eqn:E; [|reflexivity].
  cbn [negb when ret]. rewrite E.
  destruct rows as [|[|n ns] data]; try reflexivity.
  cbn [DictReader.fieldnames falsy_names when ret List.tl].
  destruct (existsb (String.eqb "name") (n :: ns)); reflexivity.
Qed.

(** Absent cells behave as empty strings. *)
Lemma or_empty_absent c : or_empty (absent_as_empty c) = or_empty c.
Proof. destruct c; reflexivity. Qed.

Lemma coerce_value_absent c :
  coerce_value py_float (absent_as_empty c) = coerce_value py_float c.
Proof. unfold coerce_value. rewrite or_empty_absent. reflexivity. Qed.

Lemma get_row_absent k (row : Row) :
  PyDict.get k (row_absent_as_empty row) = option_map absent_as_empty (PyDict.get k row).
Proof.
  induction row as [|[k' c] r IH]; simpl; auto.
  destruct (key_eqb k k'); auto.
Qed.

Lemma name_cell_absent row : name_cell (row_absent_as_empty row) = name_cell row.
Proof.
  unfold name_cell. rewrite get_row_absent.
  destruct (PyDict.get name_key row) as [c|]; simpl; auto.
  apply or_empty_absent.
Qed.

Lemma fill_item_absent cells : forall item,
  fill_item py_float (row_absent_as_empty cells) item = fill_item py_float cells item.
Proof.
  induction cells as [|[k c] rest IH]; intros item; simpl; auto.
  rewrite coerce_value_absent.
  destruct (key_eqb k name_key); auto.
  destruct (coerce_value py_float c) as [[]|]; auto.
Qed.

Lemma loop_absent rows : forall idx items warnings seen w,
  loop py_float idx (map row_absent_as_empty rows) items warnings seen w =
  loop py_float idx rows items warnings seen w.
Proof.
  induction rows as [|row rest IH]; intros idx items warnings seen w; auto.
  change (map row_absent_as_empty (row :: rest))
    with (row_absent_as_empty row :: map row_absent_as_empty rest).
  rewrite !loop_cons, name_cell_absent.
  destruct (strip_method (name_cell row)) as [name|e]; auto.
  destruct (PyStr.nonempty name); auto.
  destruct (mem name seen); auto.
  rewrite fill_item_absent.
  destruct (fill_item py_float row [(name_key, VStr name)]); auto.
Qed.

End IngestProps.

(** C6. [coerce_value] is a total function of its string argument (its
    result depends on the argument alone): it returns a value and raises
    nothing.  It returns [None] when the
    argument is empty or consists of white space only (that is, when the
    trimmed text is empty), [True] when the trimmed text is the word
    "true" in any mix of upper and lower case, and [False] when it is the
    word "false" in any mix of upper and lower case. *)
Theorem coerce_value_total_null_bool
        (float : Type) (py_float : string -> option float) (raw : string) :
  (exists v, coerce_value py_float (CStr raw) = Ok v) /\
  (PyStr.forallb PyStr.isspace raw = true ->
   coerce_value py_float (CStr raw) = Ok VNone) /\
  (PyStr.strip raw = "" -> coerce_value py_float (CStr raw) = Ok VNone) /\
  (spells "true" (PyStr.strip raw) = true ->
   coerce_value py_float (CStr raw) = Ok (VBool true)) /\
  (spells "false" (PyStr.strip raw) = true ->
   coerce_value py_float (CStr raw) = Ok (VBool false)).
Proof.
  rewrite coerce_value_str. cbv zeta.
  split; [|split; [|split; [|split]]].
  - destruct (String.eqb (PyStr.strip raw) ""); [eauto|].
    destruct (spells "true" (PyStr.strip raw)); [eauto|].
    destruct (spells "false" (PyStr.strip raw)); [eauto|].
    destruct (if looks_int (PyStr.strip raw) then PyStr.int (PyStr.strip raw) else None);
      [eauto|].
    destruct (if has_float_char (PyStr.strip raw) then py_float (PyStr.strip raw) else None);
      eauto.
  - intros H. rewrite (strip_spaces _ H). reflexivity.
  - intros ->. reflexivity.
  - intros H.
    destruct (PyStr.strip raw) as [|c s]; [discriminate H|].
    rewrite H. reflexivity.
  - intros H.
    destruct (PyStr.strip raw) as [|c s] eqn:E; [discriminate H|].
    destruct (spells "true" (String c s)) eqn:Ht.
    + apply spells_true_not_false in Ht. congruence.
    + rewrite H. reflexivity.
Qed.

Lemma coerce_value_total_null_bool_witness :
  coerce_value Sample.float (CStr "") = Ok VNone /\
  coerce_value Sample.float (CStr "  ") = Ok VNone /\
  coerce_value Sample.float (CStr "true") = Ok (VBool true) /\
  coerce_value Sample.float (CStr "FALSE") = Ok (VBool false).
Proof.
  split; [|split; [|split]].
  - destruct (coerce_value_total_null_bool Sample.float "") as (_ & _ & H & _).
    apply H. reflexivity.
  - destruct (coerce_value_total_null_bool Sample.float "  ") as (_ & H & _).
    apply H. reflexivity.
  - destruct (coerce_value_total_null_bool Sample.float "true") as (_ & _ & _ & H & _).
    apply H. reflexivity.
  - destruct (coerce_value_total_null_bool Sample.float "FALSE") as (_ & _ & _ & _ & H).
    apply H. reflexivity.
Defined.



(** C5. For a trimmed text that is not empty, not a boolean word and
    not an integer: when it contains one of ".", "e", "E" and [float]
    accepts it, [coerce_value] returns that number; when it contains one
    of them and [float] rejects it, the trimmed text comes back
    unchanged; when it contains none of them, the trimmed text comes back
    unchanged. *)
Theorem coerce_value_float_or_text
        (float : Type) (py_float : string -> option float) (raw : string) :
  String.eqb (PyStr.strip raw) "" = false ->
  spells "true" (PyStr.strip raw) = false ->
  spells "false" (PyStr.strip raw) = false ->
  int_syntax (PyStr.strip raw) = false ->
  let s := PyStr.strip raw in
  let marked := PyStr.contains "." s || PyStr.contains "e" s || PyStr.contains "E" s in
  (forall x, marked = true -> py_float s = Some x ->
             coerce_value py_float (CStr raw) = Ok (VFloat x)) /\
  (marked = true -> py_float s = None ->
   coerce_value py_float (CStr raw) = Ok (VStr s)) /\
  (marked = false -> coerce_value py_float (CStr raw) = Ok (VStr s)).
Proof.
  intros He Ht Hf Hi s marked.
  rewrite coerce_value_str. cbv zeta. fold s in He, Ht, Hf, Hi |- *.
  rewrite He, Ht, Hf, (not_int_syntax _ Hi).
  assert (Hm : has_float_char s = marked).
  { unfold has_float_char, marked. simpl. rewrite orb_false_r, orb_assoc. reflexivity. }
  rewrite Hm. split; [|split].
  - intros x -> ->. reflexivity.
  - intros -> ->. reflexivity.
  - intros ->. reflexivity.
Qed.

Lemma coerce_value_float_or_text_witness :
  coerce_value Sample.float (CStr "3.14") = Ok (VFloat (314 # 100)) /\
  coerce_value Sample.float (CStr "1.2.3") = Ok (VStr "1.2.3") /\
  coerce_value Sample.float (CStr " abc ") = Ok (VStr "abc").
Proof.
  split; [|split].
  - assert (H := coerce_value_float_or_text Sample.float "3.14"
                   eq_refl eq_refl eq_refl eq_refl).
    apply (proj1 H); reflexivity.
  - assert (H := coerce_value_float_or_text Sample.float "1.2.3"
                   eq_refl eq_refl eq_refl eq_refl).
    apply (proj1 (proj2 H)); reflexivity.
  - assert (H := coerce_value_float_or_text Sample.float " abc "
                   eq_refl eq_refl eq_refl eq_refl).
    apply (proj2 (proj2 H)); reflexivity.
Defined.

(** ** Files in which no row is longer than the header *)

Section DictValues.

Variable V : Type.
Variable Q : V -> Prop.

Local Abbreviation all_values := (Forall (fun kv : Key * V => Q (snd kv))).

Lemma set_values k v (d : PyDict.t V) :
  all_values d -> Q v -> all_values (PyDict.set k v d).
Proof.
  intros Hd Hv. induction Hd as [|[k' v'] r Hk Hr IH]; simpl.
  - constructor; auto.
  - destruct (key_eqb k k'); constructor; auto.
Qed.

Lemma fold_set_values (pairs : list (Key * V)) : forall d,
  all_values pairs -> all_values d ->
  all_values (fold_left (fun d kv => PyDict.set (fst kv) (snd kv) d) pairs d).
Proof.
  induction pairs as [|[k v] rest IH]; simpl; intros d Hp Hd; auto.
  inversion Hp; subst. apply IH; auto. apply set_values; auto.
Qed.

Lemma get_values k (d : PyDict.t V) v :
  all_values d -> PyDict.get k d = Some v -> Q v.
Proof.
  intros Hd. induction Hd as [|[k' v'] r Hk Hr IH]; simpl; [discriminate|].
  destruct (key_eqb k k'); auto. intros H. injection H as <-. exact Hk.
Qed.

End DictValues.

Lemma combine_plain names : forall row,
  plain_row (combine (map KStr names) (map CStr row)).
Proof.
  induction names as [|n ns IH]; intros [|c row]; simpl; constructor; auto.
  apply IH.
Qed.

Lemma fold_restval_plain keys : forall d : Row,
  plain_row d ->
  plain_row (fold_left (fun d key => PyDict.set (KStr key) CNone d) keys d).
Proof.
  induction keys as [|k ks IH]; simpl; intros d Hd; auto.
  apply IH. apply (set_values (fun c => plain_cell c = true)); auto.
Qed.

Lemma row_dict_plain names row :
  length row <= length names -> plain_row (DictReader.row_dict names row).
Proof.
  intros Hlen. unfold DictReader.row_dict.
  assert (Hd : plain_row (PyDict.of_pairs (combine (map KStr names) (map CStr row)))).
  { apply (fold_set_values (fun c => plain_cell c = true));
      [apply combine_plain | constructor]. }
  destruct (Nat.ltb_spec (length names) (length row)) as [Hlt|_]; [lia|].
  destruct (Nat.ltb (length row) (length names)); auto.
  apply fold_restval_plain, Hd.
Qed.

Lemma rows_plain names data :
  (forall row, In row data -> length row <= length names) ->
  Forall plain_row (DictReader.rows names data).
Proof.
  intros H. unfold DictReader.rows. apply Forall_forall. intros r Hr.
  apply in_map_iff in Hr as (row & <- & Hin).
  apply filter_In in Hin as [Hin _]. apply row_dict_plain, H, Hin.
Qed.

Lemma strip_name_plain row :
  plain_row row -> strip_method (name_cell row) = Ok (row_name row).
Proof.
  intros Hp. unfold row_name.
  destruct (strip_method (name_cell row)) as [s|e] eqn:E; [reflexivity|].
  exfalso. unfold name_cell in E.
  destruct (PyDict.get (KStr "name") row) as [c|] eqn:G; [|discriminate E].
  pose proof (@get_values _ (fun c => plain_cell c = true) _ _ _ Hp G) as Hc.
  destruct c as [s| |l]; try discriminate Hc; try discriminate E.
  unfold or_empty in E. destruct (truthy (CStr s)); discriminate E.
Qed.


Section ShapeProps.

Variable float : Type.
Variable py_float : string -> option float.

Lemma coerce_value_plain c :
  plain_cell c = true -> exists v, coerce_value py_float c = Ok v.
Proof.
  destruct c as [raw| |l]; [| |discriminate]; intros _.
  - rewrite coerce_value_str. cbv zeta.
    destruct (String.eqb (PyStr.strip raw) ""); [eauto|].
    destruct (spells "true" (PyStr.strip raw)); [eauto|].
    destruct (spells "false" (PyStr.strip raw)); [eauto|].
    destruct (if looks_int (PyStr.strip raw) then PyStr.int (PyStr.strip raw) else None);
      [eauto|].
    destruct (if has_float_char (PyStr.strip raw) then py_float (PyStr.strip raw) else None);
      eauto.
  - exists VNone. reflexivity.
Qed.

Lemma fill_item_plain cells : forall item,
  plain_row cells -> exists item', fill_item py_float cells item = Ok item'.
Proof.
  induction cells as [|[k c] rest IH]; simpl; intros item Hp; [eauto|].
  inversion Hp as [|? ? Hc Hrest]; subst. simpl in Hc.
  destruct (key_eqb k (KStr "name")); [auto|].
  destruct (coerce_value_plain _ Hc) as [v ->]. destruct v; auto.
Qed.

Lemma item_of_plain row :
  plain_row row ->
  fill_item py_float row [(KStr "name", VStr (row_name row))] = Ok (item_of py_float row) /\
  named (row_name row) (item_of py_float row).
Proof.
  intros Hp. unfold item_of.
  destruct (fill_item_plain [(KStr "name", VStr (row_name row))] Hp) as [item' E].
  rewrite E. split; auto.
  apply (fill_item_named _ _ (named_start float (row_name row)) E).
Qed.

(** The loop over a run of well-shaped rows with fresh, distinct
    names: one record for every row with a name, in the order of the rows,
    and one warning, with the current count, for every row without. *)
Lemma loop_app pre : forall idx items warnings seen w rest,
  Forall plain_row pre ->
  NoDup (map row_name (named_rows pre)) ->
  (forall r, In r (named_rows pre) -> mem (row_name r) seen = false) ->
  loop py_float idx (pre ++ rest) items warnings seen w =
  loop py_float (idx + length pre) rest
       (items ++ map (item_of py_float) (named_rows pre))
       (warnings ++ blank_warnings idx pre)
       (fold_left (fun s n => add n s) (map row_name (named_rows pre)) seen) w.
Proof.
  induction pre as [|row pre IH]; intros idx items warnings seen w rest Hp Hnd Hfresh.
  - simpl. rewrite Nat.add_0_r, !app_nil_r. reflexivity.
  - inversion Hp as [|? ? Hrow Hpre]; subst.
    change ((row :: pre) ++ rest) with (row :: pre ++ rest).
    rewrite loop_cons, (strip_name_plain Hrow).
    unfold named_rows in *. simpl in *.
    destruct (PyStr.nonempty (row_name row)) eqn:Hne; simpl in *.
    + rewrite (Hfresh row (or_introl eq_refl)).
      destruct (item_of_plain Hrow) as [-> _].
      inversion Hnd as [|? ? Hnotin Hnd']; subst.
      rewrite IH; auto.
      * rewrite <- !app_assoc, Nat.add_succ_r. reflexivity.
      * intros r Hr. rewrite mem_add, (Hfresh r (or_intror Hr)), orb_false_r.
        apply String.eqb_neq. intros E. apply Hnotin. rewrite <- E.
        apply in_map, Hr.
    + rewrite IH; auto.
      rewrite <- !app_assoc, Nat.add_succ_r. reflexivity.
Qed.

(** X1. On a file with a "name" column in which no row is longer than the
    header and the non-blank names are distinct, [read_csv_items] returns
    one record per row with a name, in the order of the rows, the number
    in each warning being two plus the number of non-blank lines read
    before. *)
Lemma read_csv_items_well_shaped path w names data :
  files w path = Some (names :: data) ->
  In "name" names ->
  (forall row, In row data -> length row <= length names) ->
  NoDup (map row_name (named_rows (DictReader.rows names data))) ->
  let rows := DictReader.rows names data in
  read_csv_items py_float path w
  = (Ok (map (item_of py_float) (named_rows rows), blank_warnings 2 rows), w) /\
  names_of (map (item_of py_float) (named_rows rows))
  = map (fun r => Some (VStr (row_name r))) (named_rows rows).
Proof.
  intros Hf Hname Hlen Hnd rows. pose proof (rows_plain _ _ Hlen) as Hplain. split.
  - rewrite read_csv_items_eq, Hf.
    destruct names as [|n ns]; [destruct Hname|].
    replace (existsb (String.eqb "name") (n :: ns)) with true.
    + rewrite <- (app_nil_r (DictReader.rows (n :: ns) data)).
      rewrite loop_app; auto.
    + symmetry. apply existsb_exists. exists "name". split; auto.
  - unfold names_of. rewrite map_map. apply map_ext_in. intros r Hr.
    apply item_of_plain. unfold named_rows in Hr. apply filter_In in Hr as [Hr _].
    apply (proj1 (Forall_forall _ _) Hplain _ Hr).
Qed.


End ShapeProps.

(** ** [read_csv_items] *)

Lemma not_in_existsb name names :
  ~ In name names -> existsb (String.eqb name) names = false.
Proof.
  intros H. destruct (existsb (String.eqb name) names) eqn:E; auto.
  apply existsb_exists in E as (x & Hx & Hxe).
  apply String.eqb_eq in Hxe. subst. contradiction.
Qed.

(** Blank lines of the file do not count: the result is the one for the
    file without them. *)
Lemma blank_lines_ignored names data1 data2 :
  DictReader.rows names (data1 ++ [] :: data2) = DictReader.rows names (data1 ++ data2).
Proof.
  unfold DictReader.rows. rewrite !filter_app. reflexivity.
Qed.

(** C1. After a successful run every record has a "name" key whose
    value is a non-empty string, no two records have the same name, and
    no key of a record has the value [None]. *)
Theorem read_csv_items_records_named
        (float : Type) (py_float : string -> option float)
        (path : string) (w w' : World)
        (items : list (Item float)) (warnings : list string) :
  read_csv_items py_float path w = (Ok (items, warnings), w') ->
  (forall item, In item items ->
     exists n, n <> "" /\ PyDict.get (KStr "name") item = Some (VStr n)) /\
  NoDup (map (PyDict.get (KStr "name")) items) /\
  (forall item k, In item items -> PyDict.get k item <> Some VNone).
Proof.
  intros H. rewrite read_csv_items_eq in H.
  destruct (files w path) as [[|[|n ns] data]|]; try discriminate H.
  destruct (existsb (String.eqb "name") (n :: ns)); [|discriminate H].
  assert (G0 : gathered (@nil (Item float)) []).
  { split; [|split]; simpl; try constructor; intros ? []. }
  destruct (loop_gathered _ _ _ _ _ G0 H) as (seen' & Hall & Hnd & _).
  split; [|split]; auto.
  - intros item Hin. destruct (Hall _ Hin) as (m & Hm & Hname & _). eauto.
  - intros item k Hin. destruct (Hall _ Hin) as (m & _ & _ & Hnone). apply Hnone.
Qed.

Lemma read_csv_items_records_named_witness :
  let items : list (Item Q) :=
    [[(KStr "name", VStr "x"); (KStr "v", VInt 1)]; [(KStr "name", VStr "y")]] in
  (forall item, In item items ->
     exists n, n <> "" /\ PyDict.get (KStr "name") item = Some (VStr n)) /\
  NoDup (map (PyDict.get (KStr "name")) items) /\
  (forall item k, In item items -> PyDict.get k item <> Some VNone).
Proof.
  apply (@read_csv_items_records_named Q Sample.float "samples.csv"
           (one_file "samples.csv" [["name"; "v"]; ["x"; "1"]; [""; "2"]; ["y"; " "]])
           (one_file "samples.csv" [["name"; "v"]; ["x"; "1"]; [""; "2"]; ["y"; " "]])
           _ ["Line 3: missing name; skipped"]).
  reflexivity.
Defined.

(** C7. [read_csv_items] stops with exit status 2 and a message on
    standard error, and returns no result, when the path does not exist
    ("source_path not found"), when the file has no header row ("CSV
    missing header row") and when the header has no column called "name"
    ("CSV must include a 'name' column"). *)
Theorem read_csv_items_fatal
        (float : Type) (py_float : string -> option float)
        (path : string) (w : World) :
  (files w path = None ->
   read_csv_items py_float path w =
   (Raise (SystemExit 2), mkWorld (files w) (stderr w ++ [not_found_line path]))) /\
  (forall rows,
     files w path = Some rows ->
     rows = [] \/ (exists data, rows = [] :: data) ->
     read_csv_items py_float path w =
     (Raise (SystemExit 2), mkWorld (files w) (stderr w ++ [no_header_line]))) /\
  (forall names data,
     files w path = Some (names :: data) ->
     names <> [] ->
     ~ In "name" names ->
     read_csv_items py_float path w =
     (Raise (SystemExit 2), mkWorld (files w) (stderr w ++ [no_name_line]))).
Proof.
  rewrite read_csv_items_eq. split; [|split].
  - intros ->. reflexivity.
  - intros rows -> [-> | [data ->]]; reflexivity.
  - intros names data -> Hne Hin.
    destruct names as [|n ns]; [congruence|].
    rewrite (not_in_existsb _ _ Hin). reflexivity.
Qed.

Lemma read_csv_items_fatal_witness :
  fst (read_csv_items Sample.float "missing.csv" (one_file "samples.csv" []))
  = Raise (SystemExit 2) /\
  read_csv_items Sample.float "samples.csv" (one_file "samples.csv" [])
  = (Raise (SystemExit 2),
     mkWorld (files (one_file "samples.csv" [])) ["ERROR: CSV missing header row"]) /\
  read_csv_items Sample.float "samples.csv" (one_file "samples.csv" [["id"; "v"]; ["x"; "1"]])
  = (Raise (SystemExit 2),
     mkWorld (files (one_file "samples.csv" [["id"; "v"]; ["x"; "1"]]))
             ["ERROR: CSV must include a 'name' column"]).
Proof.
  split; [|split].
  - destruct (read_csv_items_fatal Sample.float "missing.csv" (one_file "samples.csv" []))
      as (H & _).
    rewrite H; reflexivity.
  - destruct (read_csv_items_fatal Sample.float "samples.csv" (one_file "samples.csv" []))
      as (_ & H & _).
    apply (H []); [reflexivity | left; reflexivity].
  - destruct (read_csv_items_fatal Sample.float "samples.csv"
                (one_file "samples.csv" [["id"; "v"]; ["x"; "1"]])) as (_ & _ & H).
    apply (H ["id"; "v"] [["x"; "1"]]); [reflexivity | discriminate |].
    simpl. intros [H0|[H0|[]]]; discriminate H0.
Defined.

(** C9. The result of [read_csv_items] is determined by the contents
    of the file: two runs that find the same contents, in whatever state
    and under whatever path, return the same result (the same records and
    the same warnings, in the same order).  A run changes no file, and a
    second run after the first returns what the first returned. *)
Theorem read_csv_items_deterministic
        (float : Type) (py_float : string -> option float)
        (path1 path2 : string) (w1 w2 : World) :
  files w1 path1 = files w2 path2 ->
  fst (read_csv_items py_float path1 w1) = fst (read_csv_items py_float path2 w2) /\
  files (snd (read_csv_items py_float path1 w1)) = files w1 /\
  fst (read_csv_items py_float path1 (snd (read_csv_items py_float path1 w1)))
  = fst (read_csv_items py_float path1 w1).
Proof.
  assert (Hfiles : forall p w, files (snd (read_csv_items py_float p w)) = files w).
  { intros p w. rewrite read_csv_items_eq.
    destruct (files w p) as [[|[|n ns] data]|]; try reflexivity.
    destruct (existsb (String.eqb "name") (n :: ns)); [|reflexivity].
    apply loop_world. }
  assert (Hsame : forall p q w v, files w p = files v q ->
            fst (read_csv_items py_float p w) = fst (read_csv_items py_float q v)).
  { intros p q w v E. rewrite !read_csv_items_eq, E.
    destruct (files v q) as [[|[|n ns] data]|]; try reflexivity.
    destruct (existsb (String.eqb "name") (n :: ns)); [|reflexivity].
    apply loop_world. }
  intros E. split; [|split].
  - apply Hsame, E.
  - apply Hfiles.
  - apply Hsame. rewrite Hfiles. reflexivity.
Qed.

Lemma read_csv_items_deterministic_witness :
  let rows := [["name"; "v"]; ["x"; "1"]; [""; "2"]; ["y"; "true"]] in
  let w1 := one_file "a.csv" rows in
  let w2 := mkWorld (files (one_file "b.csv" rows)) ["WARN: earlier output"] in
  fst (read_csv_items Sample.float "a.csv" w1) = fst (read_csv_items Sample.float "b.csv" w2) /\
  files (snd (read_csv_items Sample.float "a.csv" w1)) = files w1 /\
  fst (read_csv_items Sample.float "a.csv" (snd (read_csv_items Sample.float "a.csv" w1)))
  = fst (read_csv_items Sample.float "a.csv" w1).
Proof.
  intros rows w1 w2.
  apply (read_csv_items_deterministic Sample.float "a.csv" "b.csv" w1 w2).
  reflexivity.
Defined.

(** C10. An absent cell (the row has [None] where a string is expected,
    or has no "name" key at all) is treated as the empty string and makes
    nothing fail: it is coerced to [None] and left out of the record; an
    absent name gives the blank-name warning and the loop goes on; and a
    run over rows with absent cells is the run over the same rows with
    empty strings in their place. *)
Theorem absent_cell_is_empty_string
        (float : Type) (py_float : string -> option float) :
  coerce_value py_float CNone = Ok VNone /\
  coerce_value py_float CNone = coerce_value py_float (CStr "") /\
  (forall k rest item,
     fill_item py_float ((k, CNone) :: rest) item = fill_item py_float rest item) /\
  (forall idx row rest items warnings seen w,
     PyDict.get (KStr "name") row = Some CNone \/ PyDict.get (KStr "name") row = None ->
     loop py_float idx (row :: rest) items warnings seen w =
     loop py_float (S idx) rest items (warnings ++ [warning_line idx]) seen w) /\
  (forall idx rows items warnings seen w,
     loop py_float idx (map row_absent_as_empty rows) items warnings seen w =
     loop py_float idx rows items warnings seen w).
Proof.
  split; [reflexivity|]. split; [reflexivity|]. split; [|split].
  - intros k rest item. simpl. destruct (key_eqb k (KStr "name")); reflexivity.
  - intros idx row rest items warnings seen w H.
    apply loop_blank_name. unfold name_cell. destruct H as [-> | ->]; reflexivity.
  - intros. apply loop_absent.
Qed.

Lemma absent_cell_is_empty_string_witness :
  fst (loop Sample.float 2
            [[(KStr "name", CNone); (KStr "v", CStr "1")];
             [(KStr "name", CStr "x"); (KStr "v", CNone)]] [] [] []
            (one_file "samples.csv" []))
  = Ok ([[(KStr "name", VStr "x")]], ["Line 2: missing name; skipped"]).
Proof.
  destruct (absent_cell_is_empty_string Sample.float) as (_ & _ & _ & H & _).
  rewrite H; [reflexivity | left; reflexivity].
Defined.

(** ** Rows with more cells than the header, and blank lines *)

(** C2. A file whose only data row has one name but more cells than
    the header: the names of the data rows are non-empty and distinct,
    yet [read_csv_items] does not return; it raises [AttributeError],
    because the surplus cells reach [coerce_value] as a list. *)
Theorem long_row_raises_attribute_error
        (float : Type) (py_float : string -> option float) :
  let w := one_file "samples.csv" [["name"]; ["x"; "1"]] in
  DictReader.rows ["name"] [["x"; "1"]]
  = [[(KStr "name", CStr "x"); (KNone, CList ["1"])]] /\
  map row_name (DictReader.rows ["name"] [["x"; "1"]]) = ["x"] /\
  coerce_value py_float (CList ["1"]) = Raise AttributeError /\
  read_csv_items py_float "samples.csv" w = (Raise AttributeError, w).
Proof. repeat split. Qed.

(** C3. Two rows with the same name do not always end in the
    duplicate-name error.  When a row with a name has more cells than
    the header, the run raises [AttributeError] before the duplicate is
    looked at.  When a blank line comes before the duplicate, the message
    names a line that is not the line of the duplicate: here the second
    "x" is the fourth row the reader yields, and the message says line
    3. *)
Theorem duplicate_not_always_reported
        (float : Type) (py_float : string -> option float) :
  let long := one_file "samples.csv" [["name"]; ["x"; "1"]; ["x"]] in
  let blank := [["name"]; []; ["x"]; ["x"]] in
  read_csv_items py_float "samples.csv" long = (Raise AttributeError, long) /\
  nth_error blank 3 = Some ["x"] /\
  read_csv_items py_float "samples.csv" (one_file "samples.csv" blank)
  = (Raise (SystemExit 2),
     mkWorld (files (one_file "samples.csv" blank))
             ["ERROR: Duplicate name 'x' found (line 3)"]).
Proof. repeat split. Qed.

(** C8. The number in a blank-name warning is two plus the number of
    non-blank data rows read before, not the line of the row in the file:
    here the row with the blank name is the third row the reader yields
    (line 3 of the file, after the header and a blank line), and the
    warning says line 2. *)
Theorem blank_line_shifts_warning_line
        (float : Type) (py_float : string -> option float) :
  let reader := [["name"; "v"]; []; [""; "1"]] in
  nth_error reader 2 = Some [""; "1"] /\
  fst (read_csv_items py_float "samples.csv" (one_file "samples.csv" reader))
  = Ok ([], ["Line 2: missing name; skipped"]).
Proof. repeat split. Qed.

(** * Further properties of the ingestion code *)

(** ** Trimming twice *)

Lemma rstrip_idem s : PyStr.rstrip (PyStr.rstrip s) = PyStr.rstrip s.
Proof.
  induction s as [|c r IH]; simpl; auto.
  destruct (PyStr.rstrip r) as [|c' t] eqn:E.
  - destruct (PyStr.isspace c) eqn:Hc; simpl; [reflexivity|]. rewrite Hc. reflexivity.
  - change (PyStr.rstrip (String c (String c' t)))
      with (match PyStr.rstrip (String c' t) with
            | EmptyString => if PyStr.isspace c then EmptyString else String c EmptyString
            | r' => String c r'
            end).
    rewrite IH. reflexivity.
Qed.

Lemma rstrip_lstrip t :
  PyStr.rstrip t = t -> PyStr.rstrip (PyStr.lstrip t) = PyStr.lstrip t.
Proof.
  induction t as [|c r IH]; intros H; auto.
  simpl. destruct (PyStr.isspace c) eqn:Hc; [|exact H].
  apply IH. simpl in H. rewrite Hc in H.
  destruct (PyStr.rstrip r); [discriminate H | congruence].
Qed.

Lemma lstrip_idem t : PyStr.lstrip (PyStr.lstrip t) = PyStr.lstrip t.
Proof.
  induction t as [|c r IH]; simpl; auto.
  destruct (PyStr.isspace c) eqn:Hc; auto. simpl. rewrite Hc. reflexivity.
Qed.

Lemma strip_idem s : PyStr.strip (PyStr.strip s) = PyStr.strip s.
Proof.
  unfold PyStr.strip. rewrite (rstrip_lstrip (rstrip_idem s)). apply lstrip_idem.
Qed.

(** X7. Surrounding white space never matters to [coerce_value]: a text
    and its trimmed form are coerced to the same value. *)
Theorem coerce_value_ignores_outer_space
        (float : Type) (py_float : string -> option float) (raw : string) :
  coerce_value py_float (CStr (PyStr.strip raw)) = coerce_value py_float (CStr raw).
Proof.
  rewrite !coerce_value_str. cbv zeta. rewrite strip_idem. reflexivity.
Qed.

(** X8. What each kind of result of [coerce_value] says about the text:
    the result is [None] exactly when the trimmed text is empty, [True]
    (or [False]) exactly when it spells that word in some letter case; a
    string result is the trimmed text itself and is never empty; a float
    result is what [float] made of a trimmed text that contains ".", "e"
    or "E". *)
Theorem coerce_value_result_kinds
        (float : Type) (py_float : string -> option float) (raw : string) :
  let s := PyStr.strip raw in
  (coerce_value py_float (CStr raw) = Ok VNone <-> s = "") /\
  (coerce_value py_float (CStr raw) = Ok (VBool true) <-> spells "true" s = true) /\
  (coerce_value py_float (CStr raw) = Ok (VBool false) <-> spells "false" s = true) /\
  (forall t, coerce_value py_float (CStr raw) = Ok (VStr t) -> t = s /\ t <> "") /\
  (forall x, coerce_value py_float (CStr raw) = Ok (VFloat x) ->
             py_float s = Some x /\
             PyStr.contains "." s || PyStr.contains "e" s || PyStr.contains "E" s = true).
Proof.
  intros s. rewrite coerce_value_str. cbv zeta. fold s.
  assert (Hm : has_float_char s
               = PyStr.contains "." s || PyStr.contains "e" s || PyStr.contains "E" s).
  { unfold has_float_char. simpl. rewrite orb_false_r, orb_assoc. reflexivity. }
  destruct (String.eqb s "") eqn:He.
  { apply String.eqb_eq in He. rewrite He. simpl.
    repeat split; intros; try discriminate; auto. }
  apply String.eqb_neq in He.
  destruct (spells "true" s) eqn:Ht.
  { rewrite (spells_true_not_false _ Ht).
    repeat split; intros; try discriminate; try contradiction; auto. }
  destruct (spells "false" s) eqn:Hf.
  { repeat split; intros; try discriminate; try contradiction; auto. }
  destruct (if looks_int s then PyStr.int s else None) as [z|].
  { repeat split; intros; try discriminate; try contradiction; auto. }
  destruct (has_float_char s) eqn:Hc.
  - destruct (py_float s) as [x|] eqn:Hx.
    + repeat split; intros; try discriminate; try contradiction; auto; try congruence.
    + repeat split; intros; try discriminate; try contradiction; auto; try congruence.
  - repeat split; intros; try discriminate; try contradiction; auto; try congruence.
Qed.

Lemma coerce_value_result_kinds_witness :
  "abc" = PyStr.strip " abc " /\ "abc" <> "".
Proof.
  destruct (coerce_value_result_kinds Sample.float " abc ") as (_ & _ & _ & H & _).
  apply H. reflexivity.
Defined.

Lemma isdigit_char_no_mark c :
  PyStr.isdigit_char c = true ->
  Ascii.eqb "." c = false /\ Ascii.eqb "e" c = false /\ Ascii.eqb "E" c = false /\
  Ascii.eqb (PyStr.lower_char c) "t" = false /\
  Ascii.eqb (PyStr.lower_char c) "f" = false.
Proof. each_char c; vm_compute; intuition congruence. Qed.

Lemma contains_digits ch s :
  (forall c, PyStr.isdigit_char c = true -> Ascii.eqb ch c = false) ->
  PyStr.forallb PyStr.isdigit_char s = true -> PyStr.contains ch s = false.
Proof.
  intros Hch. induction s as [|c r IH]; cbn [PyStr.contains PyStr.forallb]; auto.
  intros H. apply andb_true_iff in H as [Hc Hr].
  rewrite (Hch _ Hc), (IH Hr). reflexivity.
Qed.

Lemma digits_no_mark s :
  PyStr.forallb PyStr.isdigit_char s = true -> has_float_char s = false.
Proof.
  intros H. unfold has_float_char. cbn [existsb].
  rewrite !contains_digits; auto; intros c Hc; apply (isdigit_char_no_mark _ Hc).
Qed.

(** X9. A text made only of characters that [str.isdigit] accepts but
    that are not all decimal digits (a superscript two, say) passes the
    digit test, is rejected by [int], and comes back unchanged as a
    string: the [except] branch is taken and nothing is raised. *)
Theorem coerce_value_other_digits
        (float : Type) (py_float : string -> option float) (s : string) :
  PyStr.isdigit s = true ->
  all_decimal s = false ->
  coerce_value py_float (CStr s) = Ok (VStr s).
Proof.
  intros Hd Hn. pose proof Hd as Hd'. unfold PyStr.isdigit in Hd'.
  apply andb_true_iff in Hd' as [Hne Hall].
  rewrite coerce_value_str. cbv zeta.
  rewrite (strip_fixed _ (digits_not_space _ Hall)).
  destruct s as [|c r]; [discriminate Hne|].
  simpl in Hall. apply andb_true_iff in Hall as [Hc Hr].
  destruct (isdigit_char_no_mark _ Hc) as (_ & _ & _ & Hct & Hcf).
  rewrite <- lower_true, <- lower_false. simpl PyStr.lower.
  change (String.eqb (String ?a ?x) (String ?b ?y)) with (Ascii.eqb a b && String.eqb x y).
  simpl String.eqb. rewrite Hct, Hcf. simpl.
  assert (Hl : looks_int (String c r) = true).
  { unfold looks_int. rewrite Hd. reflexivity. }
  rewrite Hl.
  destruct (PyStr.int (String c r)) as [z|] eqn:Hz.
  - rewrite (int_of_digits _ Hd) in Hz.
    apply int_limited_some in Hz as [_ Hz].
    destruct (int_unsigned_inv _ Hd Hz) as [Hdec _]. congruence.
  - rewrite digits_no_mark; [reflexivity|].
    simpl. rewrite Hc, Hr. reflexivity.
Qed.

Lemma coerce_value_other_digits_witness :
  coerce_value Sample.float (CStr (String (ascii_of_nat 178) "")) =
  Ok (VStr (String (ascii_of_nat 178) "")).
Proof.
  apply (coerce_value_other_digits Sample.float); reflexivity.
Defined.

(** ** The outcomes of a run *)

Section OutcomeProps.

Variable float : Type.
Variable py_float : string -> option float.



Lemma loop_count rows : forall idx items warnings seen w items' warnings' w',
  loop py_float idx rows items warnings seen w = (Ok (items', warnings'), w') ->
  length items' + length warnings' = length items + length warnings + length rows.
Proof.
  induction rows as [|row rest IH]; intros idx items warnings seen w items' warnings' w' H.
  - injection H as <- <- _. simpl. lia.
  - rewrite loop_cons in H.
    destruct (strip_method (name_cell row)) as [name|e]; [|discriminate].
    destruct (PyStr.nonempty name).
    + destruct (mem name seen); [discriminate|].
      destruct (fill_item py_float row [(KStr "name", VStr name)]) as [item|e];
        [|discriminate].
      apply IH in H. rewrite length_app in H. simpl in *. lia.
    + apply IH in H. rewrite length_app in H. simpl in *. lia.
Qed.


End OutcomeProps.


(** X4. After a successful run every non-blank data line of the file
    has given either one record or one warning: the records and the
    warnings together are as many as those lines. *)
Theorem read_csv_items_accounts_for_rows
        (float : Type) (py_float : string -> option float)
        (path : string) (w w' : World) (names : list string) (data : list (list string))
        (items : list (Item float)) (warnings : list string) :
  files w path = Some (names :: data) ->
  read_csv_items py_float path w = (Ok (items, warnings), w') ->
  length items + length warnings
  = length (filter (fun row => negb (DictReader.is_blank row)) data).
Proof.
  intros Hf H. rewrite read_csv_items_eq, Hf in H.
  destruct names as [|n ns]; [discriminate H|].
  destruct (existsb (String.eqb "name") (n :: ns)); [|discriminate H].
  apply loop_count in H. unfold DictReader.rows in H.
  rewrite length_map in H. simpl in H. exact H.
Qed.

Lemma read_csv_items_accounts_for_rows_witness :
  let items : list (Item Q) :=
    [[(KStr "name", VStr "x"); (KStr "v", VInt 1)]; [(KStr "name", VStr "y")]] in
  length items + length ["Line 4: missing name; skipped"]
  = length (filter (fun row => negb (DictReader.is_blank row))
                   [["x"; "1"]; []; ["y"; " "]; [""; "2"]]).
Proof.
  apply (@read_csv_items_accounts_for_rows Q Sample.float "samples.csv"
           (one_file "samples.csv" [["name"; "v"]; ["x"; "1"]; []; ["y"; " "]; [""; "2"]])
           (one_file "samples.csv" [["name"; "v"]; ["x"; "1"]; []; ["y"; " "]; [""; "2"]])
           ["name"; "v"]); reflexivity.
Defined.

(** X3. Blank lines among the data lines are passed over and are not
    counted: a file and the same file without one of its blank data lines
    give the same result, with the same numbers in the warnings. *)
Theorem read_csv_items_skips_blank_lines
        (float : Type) (py_float : string -> option float)
        (path1 path2 : string) (w1 w2 : World)
        (names : list string) (data1 data2 : list (list string)) :
  files w1 path1 = Some (names :: data1 ++ [] :: data2) ->
  files w2 path2 = Some (names :: data1 ++ data2) ->
  fst (read_csv_items py_float path1 w1) = fst (read_csv_items py_float path2 w2).
Proof.
  intros H1 H2. rewrite !read_csv_items_eq, H1, H2.
  destruct names as [|n ns]; [reflexivity|].
  destruct (existsb (String.eqb "name") (n :: ns)); [|reflexivity].
  rewrite blank_lines_ignored. apply loop_world.
Qed.

Lemma read_csv_items_skips_blank_lines_witness :
  fst (read_csv_items Sample.float "a.csv"
         (one_file "a.csv" [["name"; "v"]; ["x"; "1"]; []; [""; "2"]]))
  = fst (read_csv_items Sample.float "b.csv"
           (one_file "b.csv" [["name"; "v"]; ["x"; "1"]; [""; "2"]])).
Proof.
  apply (@read_csv_items_skips_blank_lines Q Sample.float "a.csv" "b.csv"
           (one_file "a.csv" [["name"; "v"]; ["x"; "1"]; []; [""; "2"]])
           (one_file "b.csv" [["name"; "v"]; ["x"; "1"]; [""; "2"]])
           ["name"; "v"] [["x"; "1"]] [[""; "2"]]); reflexivity.
Defined.



(** ** The fields of a record *)

Section KeyProps.

Variable V : Type.

Lemma in_set_keys k (v : V) d x :
  In x (map fst (PyDict.set k v d)) -> x = k \/ In x (map fst d).
Proof.
  induction d as [|[k' v'] r IH]; simpl.
  - intros [<-|[]]. auto.
  - destruct (key_eqb k k'); simpl; intros [<-|H]; auto.
    destruct (IH H); auto.
Qed.

Lemma set_nodup_keys k (v : V) d :
  NoDup (map fst d) -> NoDup (map fst (PyDict.set k v d)).
Proof.
  induction d as [|[k' v'] r IH]; simpl; intros H.
  - constructor; [intros []|constructor].
  - inversion H as [|? ? Hnotin Hr]; subst.
    destruct (key_eqb k k') eqn:E; simpl; constructor; auto.
    intros Hin. apply in_set_keys in Hin as [->|Hin]; auto.
    rewrite key_eqb_refl in E. discriminate E.
Qed.

Lemma fold_set_nodup_keys (pairs : list (Key * V)) : forall d,
  NoDup (map fst d) ->
  NoDup (map fst (fold_left (fun d kv => PyDict.set (fst kv) (snd kv) d) pairs d)).
Proof.
  induction pairs as [|[k v] rest IH]; simpl; intros d Hd; auto.
  apply IH, set_nodup_keys, Hd.
Qed.

Lemma get_not_in k (d : PyDict.t V) :
  ~ In k (map fst d) -> PyDict.get k d = None.
Proof.
  induction d as [|[k' v'] r IH]; simpl; intros H; auto.
  destruct (key_eqb k k') eqn:E.
  - apply key_eqb_eq in E. subst. exfalso. auto.
  - apply IH. auto.
Qed.

Lemma set_fresh k (v : V) d :
  ~ In k (map fst d) -> PyDict.set k v d = d ++ [(k, v)].
Proof.
  induction d as [|[k' v'] r IH]; simpl; intros H; auto.
  destruct (key_eqb k k') eqn:E.
  - apply key_eqb_eq in E. subst. exfalso. auto.
  - rewrite IH; auto.
Qed.

Lemma fold_set_fresh (pairs : list (Key * V)) : forall d,
  NoDup (map fst d ++ map fst pairs) ->
  fold_left (fun d kv => PyDict.set (fst kv) (snd kv) d) pairs d = d ++ pairs.
Proof.
  induction pairs as [|[k v] rest IH]; simpl; intros d H.
  - rewrite app_nil_r. reflexivity.
  - assert (Hk : ~ In k (map fst d)).
    { apply NoDup_remove_2 in H. intros Hin. apply H. apply in_or_app. auto. }
    rewrite (set_fresh _ _ _ Hk), IH.
    + rewrite <- app_assoc. reflexivity.
    + rewrite map_app, <- app_assoc. exact H.
Qed.

End KeyProps.

Lemma fold_restval_nodup_keys keys : forall d : Row,
  NoDup (map fst d) ->
  NoDup (map fst (fold_left (fun d key => PyDict.set (KStr key) CNone d) keys d)).
Proof.
  induction keys as [|k ks IH]; simpl; intros d Hd; auto.
  apply IH, set_nodup_keys, Hd.
Qed.

(** The keys of a row made by the reader are distinct. *)
Lemma row_dict_nodup_keys names row :
  NoDup (map fst (DictReader.row_dict names row)).
Proof.
  unfold DictReader.row_dict.
  assert (Hd : NoDup (map fst (PyDict.of_pairs (combine (map KStr names) (map CStr row))))).
  { apply fold_set_nodup_keys. constructor. }
  destruct (Nat.ltb (length names) (length row)); [apply set_nodup_keys, Hd|].
  destruct (Nat.ltb (length row) (length names)); [|exact Hd].
  apply fold_restval_nodup_keys, Hd.
Qed.

Lemma KStr_nodup names : NoDup names -> NoDup (map KStr names).
Proof.
  intros H. induction H as [|n ns Hn Hns IH]; simpl; constructor; auto.
  intros Hin. apply in_map_iff in Hin as (m & Hm & Hin). injection Hm as ->. auto.
Qed.

Lemma combine_keys names : forall row : list string,
  length row = length names ->
  map fst (combine (map KStr names) (map CStr row)) = map KStr names.
Proof.
  induction names as [|n ns IH]; intros [|c row] H; simpl in *; try discriminate; auto.
  rewrite IH; auto.
Qed.

(** With distinct column names and as many cells as columns, the row
    is the list of the columns with their cells, in the order of the
    header. *)
Lemma row_dict_full names row :
  NoDup names -> length row = length names ->
  DictReader.row_dict names row = combine (map KStr names) (map CStr row).
Proof.
  intros Hnd Hlen. unfold DictReader.row_dict. rewrite Hlen, Nat.ltb_irrefl.
  unfold PyDict.of_pairs. rewrite fold_set_fresh; [reflexivity|].
  simpl. rewrite combine_keys; auto. apply KStr_nodup, Hnd.
Qed.

Lemma get_combine_nth names : forall (row : list string) i,
  NoDup names -> length row = length names -> i < length names ->
  PyDict.get (KStr (nth i names "")) (combine (map KStr names) (map CStr row))
  = Some (CStr (nth i row "")).
Proof.
  induction names as [|n ns IH]; intros [|c row] i Hnd Hlen Hi; simpl in *;
    try discriminate; try lia.
  inversion Hnd as [|? ? Hn Hns]; subst.
  destruct i as [|i].
  - rewrite String.eqb_refl. reflexivity.
  - assert (E : String.eqb (nth i ns "") n = false).
    { apply String.eqb_neq. intros <-. apply Hn, nth_In. lia. }
    rewrite E. apply IH; auto; lia.
Qed.

Section FieldProps.

Variable float : Type.
Variable py_float : string -> option float.

Lemma fill_item_fields cells : forall item item' k,
  NoDup (map fst cells) ->
  k <> KStr "name" ->
  fill_item py_float cells item = Ok item' ->
  PyDict.get k item' =
  match PyDict.get k cells with
  | Some c => match field_of py_float c with
              | Some v => Some v
              | None => PyDict.get k item
              end
  | None => PyDict.get k item
  end.
Proof.
  induction cells as [|[k0 c0] rest IH]; simpl; intros item item' k Hnd Hk H.
  - congruence.
  - inversion Hnd as [|? ? Hnotin Hrest]; subst.
    assert (Hfresh : key_eqb k k0 = true -> PyDict.get k rest = None).
    { intros E. apply key_eqb_eq in E. subst. apply get_not_in, Hnotin. }
    destruct (key_eqb k0 (KStr "name")) eqn:Ename.
    + apply key_eqb_eq in Ename. subst k0.
      destruct (key_eqb k (KStr "name")) eqn:E; [apply key_eqb_eq in E; contradiction|].
      apply IH; auto.
    + destruct (coerce_value py_float c0) as [v|e] eqn:C; [|discriminate H].
      destruct (key_eqb k k0) eqn:E.
      * pose proof (Hfresh eq_refl) as Hnone. apply key_eqb_eq in E. subst k0.
        destruct v; rewrite (IH _ _ k Hrest Hk H), Hnone; unfold field_of; rewrite C;
          try rewrite get_set_same; reflexivity.
      * destruct v; rewrite (IH _ _ k Hrest Hk H);
          (destruct (PyDict.get k rest) as [c|]; [destruct (field_of py_float c)|]);
          try (rewrite get_set_other by exact E); reflexivity.
Qed.

Lemma fill_item_head cells : forall v0 d item',
  fill_item py_float cells ((KStr "name", v0) :: d) = Ok item' ->
  hd_error item' = Some (KStr "name", v0).
Proof.
  induction cells as [|[k c] rest IH]; simpl; intros v0 d item' H.
  - injection H as <-. reflexivity.
  - destruct (key_eqb k (KStr "name")) eqn:E; [eauto|].
    destruct (coerce_value py_float c) as [v|e]; [|discriminate H].
    destruct v; eauto.
Qed.

End FieldProps.

(** X6. The record built from a row that is no longer than the header:
    its first key is "name", with the trimmed name of the row; every other
    key of the row whose cell is coerced to a value other than [None] has
    that value in the record; and the record has no other key. *)
Theorem record_fields_are_coerced_cells
        (float : Type) (py_float : string -> option float)
        (names row : list string) :
  length row <= length names ->
  let r := DictReader.row_dict names row in
  let item := item_of py_float r in
  hd_error item = Some (KStr "name", VStr (row_name r)) /\
  PyDict.get (KStr "name") item = Some (VStr (row_name r)) /\
  forall k, k <> KStr "name" ->
    PyDict.get k item =
    match PyDict.get k r with
    | Some c => field_of py_float c
    | None => None
    end.
Proof.
  intros Hlen r item.
  destruct (item_of_plain py_float (row_dict_plain _ _ Hlen)) as [Hfill [Hname _]].
  fold r in Hfill, Hname. fold item in Hfill, Hname.
  split; [|split]; auto.
  - apply (@fill_item_head float py_float _ _ _ _ Hfill).
  - intros k Hk.
    rewrite (@fill_item_fields float py_float _ _ _ k
               (row_dict_nodup_keys names row) Hk Hfill).
    fold r. destruct (PyDict.get k r) as [c|].
    + destruct (field_of py_float c); auto. simpl.
      destruct (key_eqb k (KStr "name")) eqn:E; auto.
      apply key_eqb_eq in E. contradiction.
    + simpl. destruct (key_eqb k (KStr "name")) eqn:E; auto.
      apply key_eqb_eq in E. contradiction.
Qed.

Lemma record_fields_are_coerced_cells_witness :
  let r := DictReader.row_dict ["name"; "n"; "ok"; "note"] [" x "; "-7"; "TRUE"] in
  let item := item_of Sample.float r in
  hd_error item = Some (KStr "name", VStr "x") /\
  PyDict.get (KStr "name") item = Some (VStr "x") /\
  forall k, k <> KStr "name" ->
    PyDict.get k item =
    match PyDict.get k r with
    | Some c => field_of Sample.float c
    | None => None
    end.
Proof.
  apply (record_fields_are_coerced_cells Sample.float
           ["name"; "n"; "ok"; "note"] [" x "; "-7"; "TRUE"]).
  simpl. lia.
Defined.

(** X10. With distinct column names and a row that has as many cells
    as the header, the record has, under every column other than "name",
    the coerced cell of that column, and no entry when the cell is coerced
    to [None]. *)
Theorem record_field_of_column
        (float : Type) (py_float : string -> option float)
        (names row : list string) (i : nat) :
  NoDup names ->
  length row = length names ->
  i < length names ->
  nth i names "" <> "name" ->
  PyDict.get (KStr (nth i names "")) (item_of py_float (DictReader.row_dict names row))
  = field_of py_float (CStr (nth i row "")).
Proof.
  intros Hnd Hlen Hi Hname.
  assert (Hle : length row <= length names) by lia.
  destruct (item_of_plain py_float (row_dict_plain _ _ Hle)) as [Hfill _].
  assert (Hk : KStr (nth i names "") <> KStr "name") by congruence.
  rewrite (@fill_item_fields float py_float _ _ _ _
             (row_dict_nodup_keys names row) Hk Hfill).
  rewrite (@row_dict_full names row Hnd Hlen), (@get_combine_nth names row i Hnd Hlen Hi).
  destruct (field_of py_float (CStr (nth i row ""))); auto.
  simpl. destruct (String.eqb (nth i names "") "name") eqn:E; auto.
  apply String.eqb_eq in E. contradiction.
Qed.

Lemma record_field_of_column_witness :
  PyDict.get (KStr "n")
    (item_of Sample.float (DictReader.row_dict ["name"; "n"; "ok"] ["x"; "-7"; ""]))
  = Some (VInt (-7)) /\
  PyDict.get (KStr "ok")
    (item_of Sample.float (DictReader.row_dict ["name"; "n"; "ok"] ["x"; "-7"; ""]))
  = None.
Proof.
  split.
  - apply (@record_field_of_column Q Sample.float ["name"; "n"; "ok"] ["x"; "-7"; ""] 1);
      try reflexivity; try (simpl; lia); try discriminate.
    repeat constructor; simpl; intuition discriminate.
  - apply (@record_field_of_column Q Sample.float ["name"; "n"; "ok"] ["x"; "-7"; ""] 2);
      try reflexivity; try (simpl; lia); try discriminate.
    repeat constructor; simpl; intuition discriminate.
Defined.

Lemma read_csv_items_well_shaped_witness :
  read_csv_items Sample.float "samples.csv"
    (one_file "samples.csv" [["name"; "v"]; ["x"; "1"]; []; [""; "2"]; ["y"]])
  = (Ok ([[(KStr "name", VStr "x"); (KStr "v", VInt 1)]; [(KStr "name", VStr "y")]],
         ["Line 3: missing name; skipped"]),
     one_file "samples.csv" [["name"; "v"]; ["x"; "1"]; []; [""; "2"]; ["y"]]).
Proof.
  apply (@read_csv_items_well_shaped Q Sample.float "samples.csv"
           (one_file "samples.csv" [["name"; "v"]; ["x"; "1"]; []; [""; "2"]; ["y"]])
           ["name"; "v"] [["x"; "1"]; []; [""; "2"]; ["y"]]).
  - reflexivity.
  - simpl. auto.
  - intros row [<-|[<-|[<-|[<-|[]]]]]; simpl; lia.
  - simpl. repeat constructor; simpl; intuition discriminate.
Defined.

(** * Properties of [main] *)

(** ** Joining the base address and the endpoint *)

Lemma rstrip_chars_split chars s :
  exists tail_part,
    s = (rstrip_chars chars s ++ tail_part)%string /\
    PyStr.forallb (fun c => PyStr.contains c chars) tail_part = true.
Proof.
  induction s as [|c r [t [Ht Hall]]]; simpl.
  - exists EmptyString. split; reflexivity.
  - destruct (rstrip_chars chars r) as [|c' r'] eqn:E.
    + simpl in Ht. subst r.
      destruct (PyStr.contains c chars) eqn:Hc.
      * exists (String c t). split; [reflexivity|]. simpl. rewrite Hc. exact Hall.
      * exists t. split; [reflexivity | exact Hall].
    + exists t. split; [|exact Hall]. simpl. simpl in Ht. congruence.
Qed.

Lemma lstrip_chars_split chars s :
  exists head_part,
    s = (head_part ++ lstrip_chars chars s)%string /\
    PyStr.forallb (fun c => PyStr.contains c chars) head_part = true.
Proof.
  induction s as [|c r [h [Hh Hall]]]; simpl.
  - exists EmptyString. split; reflexivity.
  - destruct (PyStr.contains c chars) eqn:Hc.
    + exists (String c h). split; [simpl; congruence|]. simpl. rewrite Hc. exact Hall.
    + exists EmptyString. split; reflexivity.
Qed.

Lemma all_slashes t :
  PyStr.forallb (fun c => PyStr.contains c "/") t = true ->
  t = slashes (String.length t).
Proof.
  induction t as [|c r IH]; simpl; auto. intros H.
  apply andb_true_iff in H as [Hc Hr]. rewrite orb_false_r in Hc.
  apply Ascii.eqb_eq in Hc. subst c. rewrite <- (IH Hr). reflexivity.
Qed.

Lemma rstrip_chars_last chars s t c :
  rstrip_chars chars s = (t ++ String c EmptyString)%string ->
  PyStr.contains c chars = false.
Proof.
  revert t. induction s as [|a r IH]; simpl; intros t H.
  - destruct t; discriminate H.
  - destruct (rstrip_chars chars r) as [|c' r'] eqn:E.
    + destruct (PyStr.contains a chars) eqn:Ha.
      * destruct t; discriminate H.
      * destruct t as [|b t]; simpl in H.
        -- injection H as ->. exact Ha.
        -- injection H as _ H. destruct t; discriminate H.
    + destruct t as [|b t]; simpl in H.
      * discriminate H.
      * injection H as _ H. apply (IH t). exact H.
Qed.

Lemma lstrip_chars_first chars s :
  match lstrip_chars chars s with
  | String c _ => PyStr.contains c chars = false
  | EmptyString => True
  end.
Proof.
  induction s as [|c r IH]; simpl; auto.
  destruct (PyStr.contains c chars) eqn:Hc; auto.
Qed.

(** X11. The address [main] builds has exactly one "/" at the joint:
    it is [b ++ "/" ++ e], where the base address is [b] followed by
    slashes only and [b] does not end with "/", and the endpoint is slashes
    only followed by [e] and [e] does not begin with "/". *)
Theorem join_url_single_slash (base_url endpoint : string) :
  exists b e n m,
    join_url base_url endpoint = (b ++ "/" ++ e)%string /\
    base_url = (b ++ slashes n)%string /\
    endpoint = (slashes m ++ e)%string /\
    (forall t, b <> (t ++ "/")%string) /\
    PyStr.startswith "/" e = false.
Proof.
  destruct (rstrip_chars_split "/" base_url) as (t & Ht & Hts).
  destruct (lstrip_chars_split "/" endpoint) as (h & Hh & Hhs).
  exists (rstrip_chars "/" base_url), (lstrip_chars "/" endpoint),
         (String.length t), (String.length h).
  split; [reflexivity|]. split; [|split; [|split]].
  - rewrite <- (all_slashes _ Hts). exact Ht.
  - rewrite <- (all_slashes _ Hhs). exact Hh.
  - intros u Hu. apply rstrip_chars_last in Hu. discriminate Hu.
  - rewrite startswith_char.
    pose proof (lstrip_chars_first "/" endpoint) as Hf.
    destruct (lstrip_chars "/" endpoint) as [|c r]; auto.
    simpl in Hf. rewrite orb_false_r in Hf. rewrite Ascii.eqb_sym. exact Hf.
Qed.

(** ** [main], case by case *)

Section MainProps.

Variable float : Type.
Variable py_float : string -> option float.
Variable json_dumps : Json float -> string.
Variable http_post : Request float -> PostResult float.

Local Abbreviation main' := (main py_float json_dumps http_post).

Lemma print_all_eq lines : forall p : Proc float,
  print_all lines p
  = (Done tt, mkProc (world p) (environ p) (stdout p ++ lines) (sent p)).
Proof.
  induction lines as [|l rest IH]; intros p; simpl.
  - rewrite app_nil_r. destruct p; reflexivity.
  - unfold pbind, print. rewrite IH. simpl. rewrite <- app_assoc. reflexivity.
Qed.

Lemma main_eq (p : Proc float) :
  main' p =
  let env := environ p in
  match PyStr.int (getenv env "MIQA_TIMEOUT" "60") with
  | None => (Failed ValueError, p)
  | Some timeout =>
      match config_problem env with
      | Some msg =>
          (Failed (Inner (SystemExit 2)), after_error p ("ERROR: " ++ msg)%string)
      | None =>
          match read_csv_items py_float (setting env "MIQA_SOURCE_PATH" ".miqa/samples.csv")
                               (world p) with
          | (Raise e, w') =>
              (Failed (Inner e), mkProc w' env (stdout p) (sent p))
          | (Ok (items, warnings), w') =>
              if dry_run_flag env then
                (Done 0%Z,
                 mkProc w' env
                        (stdout p ++ warn_lines warnings ++ dry_run_report json_dumps env items)
                        (sent p))
              else
                let req := request_of env items timeout in
                match http_post req with
                | Responded resp =>
                    (Done (code_of_status (status_code resp)),
                     mkProc w' env
                            (stdout p ++ warn_lines warnings ++ response_report json_dumps resp)
                            (sent p ++ [req]))
                | RequestException msg =>
                    (Failed (Inner (SystemExit 1)),
                     mkProc (mkWorld (files w')
                                     (stderr w' ++ [("ERROR: " ++ ("Request failed: " ++ msg))%string]))
                            env (stdout p ++ warn_lines warnings) (sent p ++ [req]))
                | OtherException =>
                    (Failed Uncaught,
                     mkProc w' env (stdout p ++ warn_lines warnings) (sent p ++ [req]))
                end
          end
      end
  end.
Proof.
  unfold main. cbv zeta.
  destruct (PyStr.int (getenv (environ p) "MIQA_TIMEOUT" "60")) as [timeout|]; [|reflexivity].
  unfold config_problem. fold (setting (environ p) "MIQA_APP_KEY" "").
  fold (setting (environ p) "MIQA_BASE_URL" "").
  fold (setting (environ p) "MIQA_PIPELINE_ID" "").
  fold (setting (environ p) "MIQA_SOURCE_FORMAT" "csv").
  unfold pbind at 1. unfold pwhen at 1.
  destruct (negb (PyStr.nonempty (setting (environ p) "MIQA_APP_KEY" ""))); [reflexivity|].
  cbn [pret]. unfold pbind at 1. unfold pwhen at 1.
  destruct (negb (PyStr.nonempty (setting (environ p) "MIQA_BASE_URL" ""))); [reflexivity|].
  cbn [pret]. unfold pbind at 1. unfold pwhen at 1.
  destruct (negb (PyStr.nonempty (setting (environ p) "MIQA_PIPELINE_ID" ""))); [reflexivity|].
  cbn [pret]. unfold pbind at 1. unfold pwhen at 1.
  destruct (negb (String.eqb (PyStr.lower (setting (environ p) "MIQA_SOURCE_FORMAT" "csv")) "csv"));
    [reflexivity|].
  cbn [pret]. unfold pbind at 1. unfold run at 1.
  fold (setting (environ p) "MIQA_SOURCE_PATH" ".miqa/samples.csv").
  destruct (read_csv_items py_float (setting (environ p) "MIQA_SOURCE_PATH" ".miqa/samples.csv")
                           (world p)) as [[[items warnings]|e] w']; [|reflexivity].
  cbn [fst snd world environ stdout sent]. unfold pbind at 1. rewrite print_all_eq.
  cbn [world environ stdout sent]. fold (warn_lines warnings).
  change (existsb _ ["1"; "true"; "yes"]) with (dry_run_flag (environ p)).
  destruct (dry_run_flag (environ p)).
  - unfold pbind, print, pret. cbn [world environ stdout sent].
    rewrite <- !app_assoc. reflexivity.
  - unfold pbind at 1. unfold post at 1. cbn [world environ stdout sent].
    change (mkRequest _ _ _ _ timeout) with (request_of (environ p) items timeout).
    destruct (http_post (request_of (environ p) items timeout)) as [resp|msg|].
    + unfold pbind, print, pret. cbn [world environ stdout sent].
      rewrite <- !app_assoc. reflexivity.
    + reflexivity.
    + reflexivity.
Qed.

End MainProps.






(** X13. A dry run sends nothing.  When it returns, it returns 0, the
    records were read, and it has printed the warnings, each after
    "WARN: ", and then the report, in which the headers show "***" in the
    place of the key. *)
Theorem main_dry_run_sends_nothing
        (float : Type) (py_float : string -> option float)
        (json_dumps : Json float -> string)
        (http_post : Request float -> PostResult float)
        (p : Proc float) :
  dry_run_flag (environ p) = true ->
  sent (snd (main py_float json_dumps http_post p)) = sent p /\
  PyDict.get (KStr "app-key") (PyDict.set (KStr "app-key") "***" (request_headers (environ p)))
  = Some "***" /\
  forall code,
    fst (main py_float json_dumps http_post p) = Done code ->
    code = 0%Z /\
    exists items warnings,
      fst (read_csv_items py_float
             (setting (environ p) "MIQA_SOURCE_PATH" ".miqa/samples.csv") (world p))
      = Ok (items, warnings) /\
      stdout (snd (main py_float json_dumps http_post p))
      = stdout p ++ warn_lines warnings ++ dry_run_report json_dumps (environ p) items.
Proof.
  intros Hdry. rewrite main_eq. cbv zeta. rewrite Hdry.
  split; [|split].
  - destruct (PyStr.int _); [|reflexivity].
    destruct (config_problem _); [reflexivity|].
    destruct (read_csv_items _ _ _) as [[[items warnings]|e] w']; reflexivity.
  - apply get_set_same.
  - intros code.
    destruct (PyStr.int _); [|discriminate].
    destruct (config_problem _); [discriminate|].
    destruct (read_csv_items _ _ _) as [[[items warnings]|e] w']; [|discriminate].
    simpl. intros H. injection H as <-. split; [reflexivity|]. eauto.
Qed.

Lemma main_dry_run_sends_nothing_witness :
  let env := fun k : string =>
               if String.eqb k "MIQA_APP_KEY" then Some "secret" else
               if String.eqb k "MIQA_BASE_URL" then Some "https://host/" else
               if String.eqb k "MIQA_PIPELINE_ID" then Some "7" else
               if String.eqb k "MIQA_SOURCE_PATH" then Some "samples.csv" else
               if String.eqb k "MIQA_DRY_RUN" then Some " Yes " else None in
  let p := mkProc (one_file "samples.csv" [["name"]; ["x"]; [""]]) env []
                  (@nil (Request Q)) in
  sent (snd (main Sample.float (fun _ => "") (fun _ => OtherException) p)) = [] /\
  fst (main Sample.float (fun _ => "") (fun _ => OtherException) p) = Done 0%Z.
Proof.
  intros env p.
  destruct (@main_dry_run_sends_nothing Q Sample.float (fun _ => "")
              (fun _ => OtherException) p eq_refl) as (H & _ & _).
  split; [exact H | reflexivity].
Defined.

(** X14. [main] sends at most one request, and only in a run that is
    not a dry run, whose settings passed the checks and whose file was
    read: the request then has the address, the parameters and the headers
    made from the settings, the records that were read as its body, and the
    timeout. *)
Theorem main_sends_what_was_read
        (float : Type) (py_float : string -> option float)
        (json_dumps : Json float -> string)
        (http_post : Request float -> PostResult float)
        (p : Proc float) :
  let env := environ p in
  let p' := snd (main py_float json_dumps http_post p) in
  sent p' = sent p \/
  exists timeout items warnings w',
    PyStr.int (getenv env "MIQA_TIMEOUT" "60") = Some timeout /\
    config_problem env = None /\
    dry_run_flag env = false /\
    read_csv_items py_float (setting env "MIQA_SOURCE_PATH" ".miqa/samples.csv") (world p)
    = (Ok (items, warnings), w') /\
    sent p' = sent p ++ [request_of env items timeout] /\
    req_json (request_of env items timeout) = payload_json items.
Proof.
  intros env p'. subst p'. rewrite main_eq. cbv zeta. fold env.
  destruct (PyStr.int _) as [timeout|] eqn:Ht; [|left; reflexivity].
  destruct (config_problem env) eqn:Hc; [left; reflexivity|].
  destruct (read_csv_items _ _ _) as [[[items warnings]|e] w'] eqn:Hr; [|left; reflexivity].
  destruct (dry_run_flag env) eqn:Hd; [left; reflexivity|].
  right. exists timeout, items, warnings, w'.
  repeat split; auto.
  destruct (http_post (request_of env items timeout)); reflexivity.
Qed.

(** X15. The headers and the parameters of the request.  The fixed
    headers and the key are always there and are what the settings say;
    each GitHub header is there exactly when its variable is not empty, with
    the value of the variable; "org_id" is a parameter exactly when it is
    given; "pipeline_id" always is. *)
Theorem request_headers_and_params (env : string -> option string) :
  let h := request_headers env in
  let given := fun v : string => if PyStr.nonempty v then Some v else None in
  PyDict.get (KStr "Accept") h = Some "application/json" /\
  PyDict.get (KStr "Content-Type") h = Some "application/json" /\
  PyDict.get (KStr "app-key") h = Some (setting env "MIQA_APP_KEY" "") /\
  PyDict.get (KStr "User-Agent") h = Some (user_agent env) /\
  PyDict.get (KStr "X-Miqa-GitHub-Run-Id") h = given (getenv env "GITHUB_RUN_ID" "") /\
  PyDict.get (KStr "X-Miqa-GitHub-Workflow") h = given (getenv env "GITHUB_WORKFLOW" "") /\
  PyDict.get (KStr "X-Miqa-GitHub-Job") h = given (getenv env "GITHUB_JOB" "") /\
  PyDict.get (KStr "X-Miqa-GitHub-Actor") h = given (getenv env "GITHUB_ACTOR" "") /\
  PyDict.get (KStr "X-Miqa-GitHub-Ref") h = given (getenv env "GITHUB_REF" "") /\
  PyDict.get (KStr "X-Miqa-GitHub-SHA") h = given (getenv env "GITHUB_SHA" "") /\
  PyDict.get (KStr "pipeline_id") (request_params env)
  = Some (setting env "MIQA_PIPELINE_ID" "") /\
  PyDict.get (KStr "org_id") (request_params env) = given (setting env "MIQA_ORG_ID" "").
Proof.
  unfold request_headers, request_params, set_if_given. cbv zeta.
  destruct (PyStr.nonempty (getenv env "GITHUB_RUN_ID" ""));
    destruct (PyStr.nonempty (getenv env "GITHUB_WORKFLOW" ""));
    destruct (PyStr.nonempty (getenv env "GITHUB_JOB" ""));
    destruct (PyStr.nonempty (getenv env "GITHUB_ACTOR" ""));
    destruct (PyStr.nonempty (getenv env "GITHUB_REF" ""));
    destruct (PyStr.nonempty (getenv env "GITHUB_SHA" ""));
    destruct (PyStr.nonempty (setting env "MIQA_ORG_ID" ""));
    repeat split; reflexivity.
Qed.

Lemma code_of_status_spec status :
  (code_of_status status = 0%Z <-> (200 <= status < 300)%Z) /\
  (code_of_status status = 1%Z <-> ~ (200 <= status < 300)%Z).
Proof.
  unfold code_of_status.
  destruct (Z.leb_spec 200 status), (Z.ltb_spec status 300); simpl;
    split; split; intros; try discriminate; try reflexivity; try lia.
Qed.

(** X16. What [main] returns.  It returns only in a dry run (then 0) or
    after a response to the one request it sent; then it returns 0 when the
    status code is from 200 to 299 and 1 otherwise, and it has printed
    "HTTP" with the status code and then the body. *)
Theorem main_return_value
        (float : Type) (py_float : string -> option float)
        (json_dumps : Json float -> string)
        (http_post : Request float -> PostResult float)
        (p : Proc float) (code : Z) :
  fst (main py_float json_dumps http_post p) = Done code ->
  let p' := snd (main py_float json_dumps http_post p) in
  (dry_run_flag (environ p) = true /\ code = 0%Z /\ sent p' = sent p) \/
  (dry_run_flag (environ p) = false /\
   exists req resp out,
     sent p' = sent p ++ [req] /\
     http_post req = Responded resp /\
     stdout p' = stdout p ++ out ++ response_report json_dumps resp /\
     (code = 0%Z /\ (200 <= status_code resp < 300)%Z \/
      code = 1%Z /\ ~ (200 <= status_code resp < 300)%Z)).
Proof.
  rewrite main_eq. cbv zeta.
  destruct (PyStr.int _) as [timeout|]; [|discriminate].
  destruct (config_problem _); [discriminate|].
  destruct (read_csv_items _ _ _) as [[[items warnings]|e] w']; [|discriminate].
  destruct (dry_run_flag (environ p)).
  - simpl. intros H. injection H as <-. left. auto.
  - destruct (http_post (request_of (environ p) items timeout)) as [resp|msg|] eqn:Hp;
      try discriminate.
    simpl. intros H. injection H as <-. right. split; [reflexivity|].
    exists (request_of (environ p) items timeout), resp, (warn_lines warnings).
    repeat split; auto.
    destruct (code_of_status_spec (status_code resp)) as [H0 H1].
    unfold code_of_status in *.
    destruct (Z.leb 200 (status_code resp) && Z.ltb (status_code resp) 300).
    + left. split; [reflexivity | apply H0; reflexivity].
    + right. split; [reflexivity | apply H1; reflexivity].
Qed.

Lemma main_return_value_witness :
  let env := fun k : string =>
               if String.eqb k "MIQA_APP_KEY" then Some "secret" else
               if String.eqb k "MIQA_BASE_URL" then Some "https://host/" else
               if String.eqb k "MIQA_PIPELINE_ID" then Some "7" else
               if String.eqb k "MIQA_SOURCE_PATH" then Some "samples.csv" else None in
  let p := mkProc (one_file "samples.csv" [["name"]; ["x"]]) env [] (@nil (Request Q)) in
  let transport := fun _ : Request Q => Responded (mkResponse 404%Z None "not found") in
  stdout (snd (main Sample.float (fun _ => "") transport p)) = ["HTTP 404"; "not found"] /\
  fst (main Sample.float (fun _ => "") transport p) = Done 1%Z.
Proof.
  intros env p transport.
  destruct (@main_return_value Q Sample.float (fun _ => "") transport p 1%Z eq_refl)
    as [(H & _)|(_ & req & resp & out & _ & _ & _ & _)].
  - discriminate H.
  - split; reflexivity.
Defined.


